(** * Strategy configurator of the MetaTrader 5 page: validation and report

  A shallow embedding of the logic of the page component ([HomePage]):
  the zod schema [strategySchema], the lookup tables, [buildStrategy] and
  [handleGenerate], together with the parts of the JavaScript platform they
  rest on (Number arithmetic and formatting, zod's synchronous parser).

  Layout:
  - [Num]  : JavaScript Numbers as IEEE 754 binary64 values
             ([*], [/], [<], [toFixed], [Number(...)], Number-to-string);
  - [Zod]  : the fragment of zod 3 used by the schema ([z.object], [z.enum],
             [z.number().min().max()], [z.array(z.string()).min()]);
  - [Page] : the component's constants and functions, named as in the source;
  - the properties, one section per topic. *)

From Stdlib Require Import ZArith QArith Qround Qabs Qpower Lia Lqa.
From Stdlib Require Import Ascii String List SpecFloat.
From stdpp Require Import gmap strings.

Local Open Scope string_scope.

(** Line feed, the [\n] of the template literal. *)
Definition nl : string := String (ascii_of_nat 10) EmptyString.

(* ===================================================================== *)
(** * JavaScript Numbers *)
(* ===================================================================== *)

Module Num.

(** A Number is a binary64 value: [SpecFloat]'s [spec_float] at precision
    53 and maximal exponent 1024 (one NaN, two zeros, two infinities). *)
Definition num : Type := spec_float.
Definition prec : Z := 53.
Definition emax : Z := 1024.

Definition mul : num -> num -> num := SFmul prec emax.
Definition div : num -> num -> num := SFdiv prec emax.

Definition isNaN (x : num) : bool :=
  match x with S754_nan => true | _ => false end.

Definition isFinite (x : num) : bool :=
  match x with S754_nan | S754_infinity _ => false | _ => true end.

(** The mathematical value of a finite Number (ECMA-262's R(x)); both
    zeros are 0. Not meaningful for NaN and the infinities. *)
Definition to_Q (x : num) : Q :=
  match x with
  | S754_finite s m e => inject_Z (cond_Zopp s (Zpos m)) * 2 ^ e
  | _ => 0
  end.

(** The Number nearest to a rational, ties to even (ECMA-262's F(q));
    the correctly rounded quotient of numerator by denominator. *)
Definition of_Q (q : Q) : num :=
  match Qnum q with
  | Z0 => S754_zero false
  | Zpos a => div (S754_finite false a 0) (S754_finite false (Qden q) 0)
  | Zneg a => div (S754_finite true a 0) (S754_finite false (Qden q) 0)
  end.

Definition of_Z (n : Z) : num := of_Q (inject_Z n).

Definition Qltb (a b : Q) : bool := negb (Qle_bool b a).

(** [x < y] (Number::lessThan); a comparison with NaN is undefined, which
    every relational operator turns into [false]. *)
Definition lt (x y : num) : bool :=
  match x, y with
  | S754_nan, _ | _, S754_nan => false
  | S754_infinity sx, S754_infinity sy => sx && negb sy
  | S754_infinity sx, _ => sx
  | _, S754_infinity sy => negb sy
  | _, _ => Qltb (to_Q x) (to_Q y)
  end.

Definition gt (x y : num) : bool := lt y x.
(** [x <= y] and [x >= y]: false when undefined or when the strict
    comparison the other way round holds. *)
Definition le (x y : num) : bool :=
  negb (isNaN x) && negb (isNaN y) && negb (lt y x).
Definition ge (x y : num) : bool := le y x.

(** Identity of Number values (same sign, mantissa and exponent). *)
Definition same (x y : num) : bool :=
  match x, y with
  | S754_nan, S754_nan => true
  | S754_zero s, S754_zero s' => Bool.eqb s s'
  | S754_infinity s, S754_infinity s' => Bool.eqb s s'
  | S754_finite s m e, S754_finite s' m' e' =>
      Bool.eqb s s' && Pos.eqb m m' && Z.eqb e e'
  | _, _ => false
  end.

(** ** Decimal digits *)

Definition digit_char (d : Z) : ascii := ascii_of_nat (48 + Z.to_nat d).

Fixpoint digits_aux (fuel : nat) (n : Z) (acc : string) : string :=
  match fuel with
  | O => acc
  | S fuel' =>
      let acc' := String (digit_char (n mod 10)) acc in
      if (n <? 10)%Z then acc' else digits_aux fuel' (n / 10) acc'
  end.

(** The decimal representation of a non-negative integer, most
    significant digit first, no leading zeros ("0" for 0). A number has no
    more decimal digits than binary ones, hence the fuel. *)
Definition digits (n : Z) : string :=
  digits_aux (S (Z.to_nat (Z.log2 n))) n "".

Fixpoint zeros (n : nat) : string :=
  match n with O => "" | S n' => String "0" (zeros n') end.

Definition is_digit (c : ascii) : bool :=
  let n := nat_of_ascii c in (48 <=? n)%nat && (n <=? 57)%nat.

Fixpoint all_digits (s : string) : bool :=
  match s with
  | EmptyString => true
  | String c r => is_digit c && all_digits r
  end.

(** ** Number::toString (radix 10)

    For a positive finite [x], ECMA-262 asks for integers [n], [k], [s]
    with [k >= 1], [10^(k-1) <= s < 10^k], [F(s * 10^(n-k)) = x] and [k] as
    small as possible; among several [s], the one whose value is closest to
    [x], the even one on a tie. The search below enumerates [k] upwards. *)

Definition pow10 (n : Z) : Q := 10 ^ n.

(** The least [n] from [n0] on with [a < 10^n]. *)
Fixpoint magnitude_from (fuel : nat) (n0 : Z) (a : Q) : Z :=
  match fuel with
  | O => n0
  | S fuel' => if Qltb a (pow10 n0) then n0 else magnitude_from fuel' (n0 + 1) a
  end.

(** The [n] with [10^(n-1) <= a < 10^n], for [a > 0]. With [d] the
    difference of the binary logarithms of numerator and denominator,
    [2^(d-1) < a < 2^(d+1)]; as 0.30103 is just above log10 2, the search
    can start at [(d-1) * 0.30103 - 1], at most four steps below [n]. *)
Definition magnitude (a : Q) : Z :=
  let d := (Z.log2 (Qnum a) - Z.log2 (Zpos (Qden a)))%Z in
  magnitude_from 6 ((d - 1) * 30103 / 100000 - 1)%Z a.

Definition decimal_value (s n k : Z) : Q := inject_Z s * pow10 (n - k).

(** The [s] with exactly [k] digits that can stand for [a] at exponent
    [n]: the integers around [a / 10^(n-k)] and the ends of the range. *)
Definition candidates (a : Q) (n k : Z) : list Z :=
  let t := Qfloor (a / pow10 (n - k)) in
  let lo := (10 ^ (k - 1))%Z in
  let hi := (10 ^ k - 1)%Z in
  List.filter (fun s => (lo <=? s)%Z && (s <=? hi)%Z) [t; (t + 1)%Z; lo; hi].

(** [preferred a k c1 c2]: candidate [c1] is at least as good as [c2]. *)
Definition preferred (a : Q) (k : Z) (c1 c2 : Z * Z) : bool :=
  let d1 := Qabs (decimal_value (fst c1) (snd c1) k - a) in
  let d2 := Qabs (decimal_value (fst c2) (snd c2) k - a) in
  Qltb d1 d2 || (Qeq_bool d1 d2 && Z.even (fst c1)).

Definition best (a : Q) (k : Z) (cs : list (Z * Z)) : option (Z * Z) :=
  List.fold_left
    (fun acc c =>
       match acc with
       | None => Some c
       | Some c0 => if preferred a k c0 c then Some c0 else Some c
       end) cs None.

(** The pairs [(s, n)] with [k] digits that read back as [x], for [n]
    around the magnitude [n0] of [x]: a decimal that rounds to [x] may lie
    on the other side of a power of ten. *)
Definition representations (x : num) (n0 k : Z) : list (Z * Z) :=
  List.flat_map
    (fun n =>
       List.map (fun s => (s, n))
         (List.filter (fun s => same (of_Q (decimal_value s n k)) x)
            (candidates (to_Q x) n k)))
    [(n0 - 1)%Z; n0; (n0 + 1)%Z].

Fixpoint shortest_from (fuel : nat) (k : Z) (x : num) (n0 : Z)
  : option (Z * Z * Z) :=
  match fuel with
  | O => None
  | S fuel' =>
      match best (to_Q x) k (representations x n0 k) with
      | Some (s, n) => Some (s, n, k)
      | None => shortest_from fuel' (k + 1) x n0
      end
  end.

(** Seventeen significant digits identify every binary64 value. *)
Definition shortest (x : num) : option (Z * Z * Z) :=
  shortest_from 17 1 x (magnitude (to_Q x)).

Definition sub (s : string) (from len : Z) : string :=
  substring (Z.to_nat from) (Z.to_nat len) s.

(** Steps 7 to 12 of Number::toString: plain digits, a decimal point
    inside, a leading "0.", or exponential notation. *)
Definition format_decimal (s n k : Z) : string :=
  let ds := digits s in
  if ((k <=? n) && (n <=? 21))%Z then ds +:+ zeros (Z.to_nat (n - k))
  else if ((0 <? n) && (n <=? 21))%Z then sub ds 0 n +:+ "." +:+ sub ds n (k - n)
  else if ((-6 <? n) && (n <=? 0))%Z then "0." +:+ zeros (Z.to_nat (- n)) +:+ ds
  else
    let e := (n - 1)%Z in
    let es := (if (e <? 0)%Z then "-" else "+") +:+ digits (Z.abs e) in
    if (k =? 1)%Z then ds +:+ "e" +:+ es
    else sub ds 0 1 +:+ "." +:+ sub ds 1 (k - 1) +:+ "e" +:+ es.

Definition toString (x : num) : string :=
  match x with
  | S754_nan => "NaN"
  | S754_zero _ => "0"
  | S754_infinity s => (if s then "-" else "") +:+ "Infinity"
  | S754_finite sg _ _ =>
      (if sg then "-" else "") +:+
      match shortest (SFabs x) with
      | Some (s, n, k) => format_decimal s n k
      | None => ""
      end
  end.

(** ** Number.prototype.toFixed *)

(** Step 11 of [toFixed]: the digits of [n], padded with zeros to [f + 1]
    digits, with a point before the last [f]. *)
Definition fixed_digits (f : nat) (n : Z) : string :=
  let m := if (n =? 0)%Z then "0" else digits n in
  match f with
  | O => m
  | S _ =>
      let m' := zeros (f + 1 - String.length m) +:+ m in
      let k := String.length m' in
      substring 0 (k - f) m' +:+ "." +:+ substring (k - f) f m'
  end.

(** [x.toFixed(f)] for [0 <= f <= 100] (no RangeError then). [n] is the
    integer with [n / 10^f] nearest to [|x|], the larger one on a tie;
    from 10^21 on the result is the Number-to-string conversion. *)
Definition toFixed (f : nat) (x : num) : string :=
  match x with
  | S754_nan | S754_infinity _ => toString x
  | _ =>
      let q := to_Q x in
      let sgn := if Qltb q 0 then "-" else "" in
      let a := Qabs q in
      if Qle_bool (pow10 21) a then sgn +:+ toString (SFabs x)
      else sgn +:+ fixed_digits f (Qfloor (a * pow10 (Z.of_nat f) + (1 # 2)))
  end.

(** ** Number(string): StringToNumber

    The decimal literals: an optional sign, then [Infinity] or digits with
    an optional fraction and exponent; the empty string is +0; anything
    else is NaN. White space and the 0x/0o/0b prefixes, which [toFixed]
    never produces, are not covered (they give NaN here). *)

Fixpoint span_digits (s : string) : string * string :=
  match s with
  | String c r =>
      if is_digit c then let (d, t) := span_digits r in (String c d, t)
      else (EmptyString, s)
  | EmptyString => (EmptyString, EmptyString)
  end.

Fixpoint digits_value (acc : Z) (s : string) : Z :=
  match s with
  | EmptyString => acc
  | String c r => digits_value (10 * acc + (Z.of_nat (nat_of_ascii c) - 48)) r
  end.

Definition parse_exponent (s : string) : option Z :=
  match s with
  | EmptyString => Some 0%Z
  | String c r =>
      if (Ascii.eqb c "e" || Ascii.eqb c "E")%bool then
        let (neg, r') :=
          match r with
          | String "-" t => (true, t)
          | String "+" t => (false, t)
          | _ => (false, r)
          end in
        match span_digits r' with
        | (String d ds, EmptyString) =>
            let e := digits_value 0 (String d ds) in
            Some (if neg then (- e)%Z else e)
        | _ => None
        end
      else None
  end.

Definition parse_unsigned (s : string) : option Q :=
  let (ip, r1) := span_digits s in
  let (fp, r2) :=
    match r1 with
    | String "." t => span_digits t
    | _ => (EmptyString, r1)
    end in
  match ip +:+ fp with
  | EmptyString => None
  | ds =>
      match parse_exponent r2 with
      | Some e =>
          Some (inject_Z (digits_value 0 ds)
                * pow10 (e - Z.of_nat (String.length fp)))%Q
      | None => None
      end
  end.

Definition Number (s : string) : num :=
  match s with
  | EmptyString => S754_zero false
  | _ =>
      let (neg, r) :=
        match s with
        | String "-" t => (true, t)
        | String "+" t => (false, t)
        | _ => (false, s)
        end in
      let magnitude :=
        if String.eqb r "Infinity" then S754_infinity false
        else match parse_unsigned r with
             | Some q => of_Q q
             | None => S754_nan
             end in
      if neg then SFopp magnitude else magnitude
  end.

(** ** Shapes of Numbers and of their renderings *)

(** The sign bit (none for NaN). *)
Definition negative (x : num) : bool :=
  match x with
  | S754_zero s | S754_infinity s | S754_finite s _ _ => s
  | S754_nan => false
  end.

(** [two_decimals s]: [s] is a run of one or more digits, a point and
    exactly two digits. *)
Definition two_decimals (s : string) : bool :=
  let (a, r) := span_digits s in
  negb (String.eqb a "") &&
  match r with
  | String "." b => all_digits b && (String.length b =? 2)%nat
  | _ => false
  end.

End Num.

(* ===================================================================== *)
(** * Text *)
(* ===================================================================== *)

Module Text.

(** The lines of a text: the pieces between line feeds. *)
Fixpoint lines (s : string) : list string :=
  match s with
  | EmptyString => [EmptyString]
  | String c r =>
      if Ascii.eqb c (ascii_of_nat 10) then EmptyString :: lines r
      else match lines r with
           | l :: ls => String c l :: ls
           | [] => [String c EmptyString]
           end
  end.

Fixpoint single_line (s : string) : bool :=
  match s with
  | EmptyString => true
  | String c r => negb (Ascii.eqb c (ascii_of_nat 10)) && single_line r
  end.

End Text.

(* ===================================================================== *)
(** * The zod fragment used by the schema *)
(* ===================================================================== *)

Module Zod.

(** JavaScript values, as far as a form payload can hold them. An object
    is a finite map from property names to values; reading a missing
    property gives [undefined]. *)
#[warnings="-register-all"] Inductive jsval : Type :=
| JUndefined
| JNull
| JBool (b : bool)
| JNum (x : Num.num)
| JStr (s : string)
| JArr (items : list jsval)
| JObj (props : gmap string jsval).

Definition get (o : gmap string jsval) (key : string) : jsval :=
  default JUndefined (o !! key).

(** [getParsedType]: zod's view of [typeof], with NaN, null and arrays
    told apart. *)
Inductive ZodParsedType : Type :=
| t_string | t_nan | t_number | t_boolean | t_undefined | t_null
| t_array | t_object.

Definition getParsedType (v : jsval) : ZodParsedType :=
  match v with
  | JUndefined => t_undefined
  | JNull => t_null
  | JBool _ => t_boolean
  | JNum x => if Num.isNaN x then t_nan else t_number
  | JStr _ => t_string
  | JArr _ => t_array
  | JObj _ => t_object
  end.

Definition type_name (t : ZodParsedType) : string :=
  match t with
  | t_string => "string" | t_nan => "nan" | t_number => "number"
  | t_boolean => "boolean" | t_undefined => "undefined" | t_null => "null"
  | t_array => "array" | t_object => "object"
  end.

(** ** Schemas *)

(** [.min(v)] and [.max(v)] on a number schema are the inclusive bounds
    (zod's [gte] and [lte]). *)
Inductive number_check : Type :=
| check_min (value : Num.num)
| check_max (value : Num.num).

#[warnings="-register-all"] Inductive schema : Type :=
| z_string
| z_number (checks : list number_check)
| z_enum (values : list string)
| z_array (element : schema) (minLength : option nat)
| z_object (shape : list (string * schema)).

(** ** Issues *)

Inductive path_elem : Type :=
| PKey (key : string)
| PIndex (index : nat).

Inductive issue_code : Type :=
| invalid_type (expected : string) (received : ZodParsedType)
| invalid_enum_value (options : list string) (received : string)
| too_small_number (minimum : Num.num)
| too_big_number (maximum : Num.num)
| too_small_array (minimum : nat).

Record issue : Type := { code : issue_code; path : list path_elem }.

(** [util.joinValues]: the options in single quotes, separated by bars. *)
Definition joinValues (values : list string) : string :=
  String.concat " | " (List.map (fun v => "'" +:+ v +:+ "'") values).

(** The default (English) error map of zod 3, on the codes above. *)
Definition errorMap (c : issue_code) : string :=
  match c with
  | invalid_type expected received =>
      match received with
      | t_undefined => "Required"
      | _ => "Expected " +:+ expected +:+ ", received " +:+ type_name received
      end
  | invalid_enum_value options received =>
      "Invalid enum value. Expected " +:+ joinValues options
      +:+ ", received '" +:+ received +:+ "'"
  | too_small_number minimum =>
      "Number must be greater than or equal to " +:+ Num.toString minimum
  | too_big_number maximum =>
      "Number must be less than or equal to " +:+ Num.toString maximum
  | too_small_array minimum =>
      "Array must contain at least "
      +:+ Num.toString (Num.of_Z (Z.of_nat minimum)) +:+ " element(s)"
  end.

Definition message (i : issue) : string := errorMap (code i).

(** ** Parsing

    [issues s path v] is the list of issues, in the order zod adds them to
    the parse context, when [v] is parsed against [s] at [path]. A parse
    succeeds exactly when there are none. *)

Definition check_issue (path : list path_elem) (x : Num.num)
    (c : number_check) : list issue :=
  match c with
  | check_min value =>
      if Num.lt x value
      then [ {| code := too_small_number value; path := path |} ] else []
  | check_max value =>
      if Num.gt x value
      then [ {| code := too_big_number value; path := path |} ] else []
  end.

(** The issues of the elements of an array, [i] being the index of the
    first one. *)
Fixpoint items_issues (f : list path_elem -> jsval -> list issue)
    (path : list path_elem) (i : nat) (items : list jsval) : list issue :=
  match items with
  | [] => []
  | v :: rest =>
      (f (path ++ [PIndex i]) v ++ items_issues f path (S i) rest)%list
  end.

Fixpoint issues (s : schema) (path : list path_elem) (v : jsval)
  : list issue :=
  match s with
  | z_string =>
      match v with
      | JStr _ => []
      | _ => [ {| code := invalid_type "string" (getParsedType v);
                  path := path |} ]
      end
  | z_number checks =>
      match v with
      | JNum x =>
          if Num.isNaN x
          then [ {| code := invalid_type "number" t_nan; path := path |} ]
          else List.flat_map (check_issue path x) checks
      | _ => [ {| code := invalid_type "number" (getParsedType v);
                  path := path |} ]
      end
  | z_enum values =>
      match v with
      | JStr str =>
          if List.existsb (String.eqb str) values then []
          else [ {| code := invalid_enum_value values str; path := path |} ]
      | _ => [ {| code := invalid_type (joinValues values) (getParsedType v);
                  path := path |} ]
      end
  | z_array element minLength =>
      match v with
      | JArr items =>
          ((match minLength with
            | Some n =>
                if (List.length items <? n)%nat
                then [ {| code := too_small_array n; path := path |} ]
                else []
            | None => []
            end)
           ++ items_issues (issues element) path 0 items)%list
      | _ => [ {| code := invalid_type "array" (getParsedType v);
                  path := path |} ]
      end
  | z_object shape =>
      match v with
      | JObj props =>
          (fix fields (sh : list (string * schema)) : list issue :=
             match sh with
             | [] => []
             | (key, s') :: rest =>
                 (issues s' (path ++ [PKey key]) (get props key)
                  ++ fields rest)%list
             end) shape
      | _ => [ {| code := invalid_type "object" (getParsedType v);
                  path := path |} ]
      end
  end.

(** [schema.parse(v)]: the value itself when there is no issue (none of
    these schemas transforms its input; unknown keys of an object are
    dropped, which no reader of the six known keys can see), and
    otherwise a [ZodError] carrying the issues. *)
Inductive parse_result : Type :=
| Parsed (value : jsval)
| ZodError (errors : list issue).

Definition parse (s : schema) (v : jsval) : parse_result :=
  match issues s [] v with
  | [] => Parsed v
  | i :: rest => ZodError (i :: rest)
  end.

End Zod.

(* ===================================================================== *)
(** * The page component *)
(* ===================================================================== *)

Module Page.
Import Zod.

(** A numeric literal of the source denotes the nearest Number. *)
Definition lit (s : string) : Num.num := Num.Number s.

Definition strategySchema : schema :=
  z_object
    [ ("profile", z_enum ["Scalping"; "Day Trade"; "Swing"]);
      ("capital", z_number [check_min (lit "100")]);
      ("riskPerTrade", z_number [check_min (lit "0.1"); check_max (lit "5")]);
      ("indicators", z_array z_string (Some 1%nat));
      ("session", z_enum ["Londres"; "Nova York"; "Tóquio"]);
      ("automationLevel", z_enum ["Manual"; "Semi-Autônomo"; "Total"]) ].

Definition indicatorOptions : list string :=
  [ "Média Móvel Exponencial (EMA)";
    "Índice de Força Relativa (RSI)";
    "Bandas de Bollinger";
    "Parabolic SAR";
    "MACD" ].

Definition riskNotes : gmap string string :=
  {[ "Scalping" :=
       "Aproveite spreads baixos e priorize execução em contas ECN.";
     "Day Trade" :=
       "Combine confirmação de tendência com filtro de volatilidade.";
     "Swing" :=
       "Busque confluência em timeframes H4 e D1, validando suporte/resistência." ]}.

Definition automationTips : gmap string string :=
  {[ "Manual" :=
       "Ideal para traders discricionários que buscam validar regras.";
     "Semi-Autônomo" :=
       "Automatize entradas/saídas e mantenha supervisão humana para ajustes.";
     "Total" :=
       "Garanta backtests robustos em M1/M5 e monitore métricas de drawdown semanal." ]}.

Definition sessionCharacteristics : gmap string string :=
  {[ "Londres" :=
       "Alta liquidez em pares EUR/GBP, volatilidade consistente.";
     "Nova York" :=
       "Maior volume em USD, ideal para continuidades ou reversões pós-Londres.";
     "Tóquio" :=
       "Mercado mais técnico, spreads mais altos, pares JPY responsivos." ]}.

(** [z.infer<typeof strategySchema>]: the three enumerations are unions of
    string literals, kept as the strings they are at run time. *)
Record StrategyInput : Type := {
  profile : string;
  capital : Num.num;
  riskPerTrade : Num.num;
  indicators : list string;
  session : string;
  automationLevel : string
}.

Definition defaultState : gmap string jsval :=
  {[ "profile" := JStr "Day Trade";
     "capital" := JNum (lit "1000");
     "riskPerTrade" := JNum (lit "1");
     "indicators" :=
       JArr [ JStr (nth 0 indicatorOptions ""); JStr (nth 1 indicatorOptions "") ];
     "session" := JStr "Londres";
     "automationLevel" := JStr "Semi-Autônomo" ]}.

(** A table entry inside a template literal: a missing key reads as
    [undefined] and prints as such. (A key that names a member of
    [Object.prototype] would read that member instead; [buildStrategy] is
    given parsed inputs only, whose keys are those of the tables.) *)
Definition entry (table : gmap string string) (key : string) : string :=
  default "undefined" (table !! key).

Definition riskCapital (input : StrategyInput) : Num.num :=
  Num.div (Num.mul (capital input) (riskPerTrade input)) (lit "100").

Definition stopLossPips (input : StrategyInput) : Num.num :=
  if String.eqb (profile input) "Scalping" then lit "8"
  else if String.eqb (profile input) "Day Trade" then lit "20"
  else lit "45".

Definition takeProfitMultiplier (input : StrategyInput) : Num.num :=
  if String.eqb (profile input) "Scalping" then lit "1.2"
  else if String.eqb (profile input) "Day Trade" then lit "2"
  else lit "2.8".

Definition lotSize (input : StrategyInput) : Num.num :=
  Num.Number
    (Num.toFixed 2
       (Num.div (riskCapital input) (Num.mul (stopLossPips input) (lit "1.5")))).

Definition buildStrategy (input : StrategyInput) : string :=
  "Estratégia " +:+ profile input +:+ " " +:+ session input +:+ nl +:+
  "- Indicadores principais: " +:+ String.concat ", " (indicators input) +:+ nl +:+
  "- Sessão: " +:+ entry sessionCharacteristics (session input) +:+ nl +:+
  "- Risco por trade: " +:+ Num.toFixed 2 (riskPerTrade input) +:+ "% ("
    +:+ Num.toFixed 2 (riskCapital input) +:+ " USD)" +:+ nl +:+
  "- Stop loss médio: " +:+ Num.toString (stopLossPips input)
    +:+ " pips | Take profit: "
    +:+ Num.toFixed 0 (Num.mul (stopLossPips input) (takeProfitMultiplier input))
    +:+ " pips" +:+ nl +:+
  "- Lote sugerido: " +:+ Num.toString (lotSize input) +:+ " mini lotes" +:+ nl +:+
  "- Observação: " +:+ entry riskNotes (profile input) +:+ " "
    +:+ entry automationTips (automationLevel input).

(** The value zod hands back, read at the type it was checked against. *)
Fixpoint strings (items : list jsval) : option (list string) :=
  match items with
  | [] => Some []
  | JStr s :: rest => option_map (cons s) (strings rest)
  | _ :: _ => None
  end.

Definition typed (v : jsval) : option StrategyInput :=
  match v with
  | JObj o =>
      match get o "profile", get o "capital", get o "riskPerTrade",
            get o "indicators", get o "session", get o "automationLevel" with
      | JStr p, JNum c, JNum r, JArr items, JStr s, JStr a =>
          option_map
            (fun l => {| profile := p; capital := c; riskPerTrade := r;
                         indicators := l; session := s; automationLevel := a |})
            (strings items)
      | _, _, _, _, _, _ => None
      end
  | _ => None
  end.

(** What [handleGenerate] makes of a payload: the report, or the message
    it puts in the error state. *)
Inductive outcome : Type :=
| Report (text : string)
| Failure (message : string).

(** The [try] block of [handleGenerate] and its [catch]: the specification's
    [derive]. A [ZodError] gives the message of its first issue, with a
    fallback should there be none; the message of the [else] branch stands
    for any other failure. *)
Definition generate (payload : jsval) : outcome :=
  match parse strategySchema payload with
  | Parsed v =>
      match typed v with
      | Some parsed => Report (buildStrategy parsed)
      | None => Failure "Não foi possível gerar a estratégia."
      end
  | ZodError errors =>
      Failure (match errors with
               | i :: _ => message i
               | [] => "Dados inválidos"
               end)
  end.

(** The three pieces of component state. *)
Record state : Type := {
  form : option (gmap string jsval);
  error : option string;
  result : option string
}.

(** [setForm(prev => ({ ...(prev ?? defaultState), ...partial }))]. *)
Definition handleChange (partial : gmap string jsval) (st : state) : state :=
  {| form := Some (partial ∪ default defaultState (form st));
     error := error st;
     result := result st |}.

Definition handleGenerate (st : state) : state :=
  match generate (JObj (default defaultState (form st))) with
  | Report text => {| form := form st; error := None; result := Some text |}
  | Failure msg => {| form := form st; error := Some msg; result := result st |}
  end.

End Page.

(* ===================================================================== *)
(** * The lines of the report *)
(* ===================================================================== *)

Module Layout.
Import Page.

(** The seven pieces that the template of [buildStrategy] separates by
    line feeds. *)
Definition title_line (p : StrategyInput) : string :=
  "Estratégia " +:+ profile p +:+ " " +:+ session p.

Definition indicators_line (p : StrategyInput) : string :=
  "- Indicadores principais: " +:+ String.concat ", " (indicators p).

Definition session_line (p : StrategyInput) : string :=
  "- Sessão: " +:+ entry sessionCharacteristics (session p).

Definition risk_line (p : StrategyInput) : string :=
  "- Risco por trade: " +:+ Num.toFixed 2 (riskPerTrade p) +:+ "% ("
  +:+ Num.toFixed 2 (riskCapital p) +:+ " USD)".

Definition targets_line (p : StrategyInput) : string :=
  "- Stop loss médio: " +:+ Num.toString (stopLossPips p)
  +:+ " pips | Take profit: "
  +:+ Num.toFixed 0 (Num.mul (stopLossPips p) (takeProfitMultiplier p))
  +:+ " pips".

Definition lot_line (p : StrategyInput) : string :=
  "- Lote sugerido: " +:+ Num.toString (lotSize p) +:+ " mini lotes".

Definition observation_line (p : StrategyInput) : string :=
  "- Observação: " +:+ entry riskNotes (profile p) +:+ " "
  +:+ entry automationTips (automationLevel p).

Definition report_lines (p : StrategyInput) : list string :=
  [ title_line p; indicators_line p; session_line p; risk_line p;
    targets_line p; lot_line p; observation_line p ].

(** Everything above the observation line. *)
Definition report_head (p : StrategyInput) : string :=
  String.concat nl
    [ title_line p; indicators_line p; session_line p; risk_line p;
      targets_line p; lot_line p ].

Definition with_automationLevel (a : string) (p : StrategyInput)
  : StrategyInput :=
  {| profile := profile p; capital := capital p;
     riskPerTrade := riskPerTrade p; indicators := indicators p;
     session := session p; automationLevel := a |}.

End Layout.

(* ===================================================================== *)
(** * The validation rules, stated on their own *)
(* ===================================================================== *)

Module Rules.
Import Zod Page.

(** The six fields in the order of the schema's keys. *)
Inductive field : Type :=
| f_profile | f_capital | f_riskPerTrade | f_indicators | f_session
| f_automationLevel.

Definition priority : list field :=
  [f_profile; f_capital; f_riskPerTrade; f_indicators; f_session;
   f_automationLevel].

Definition field_name (f : field) : string :=
  match f with
  | f_profile => "profile"
  | f_capital => "capital"
  | f_riskPerTrade => "riskPerTrade"
  | f_indicators => "indicators"
  | f_session => "session"
  | f_automationLevel => "automationLevel"
  end.

Definition profiles : list string := ["Scalping"; "Day Trade"; "Swing"].
Definition sessions : list string := ["Londres"; "Nova York"; "Tóquio"].
Definition automationLevels : list string :=
  ["Manual"; "Semi-Autônomo"; "Total"].

Definition one_of (options : list string) (v : jsval) : bool :=
  match v with
  | JStr s => List.existsb (String.eqb s) options
  | _ => false
  end.

Definition is_string (v : jsval) : bool :=
  match v with JStr _ => true | _ => false end.

(** The rule of each field, on the value found under its key. *)
Definition rule_on (f : field) (v : jsval) : bool :=
  match f with
  | f_profile => one_of profiles v
  | f_capital =>
      match v with JNum x => Num.ge x (lit "100") | _ => false end
  | f_riskPerTrade =>
      match v with
      | JNum x => Num.ge x (lit "0.1") && Num.le x (lit "5")
      | _ => false
      end
  | f_indicators =>
      match v with
      | JArr items => (1 <=? List.length items)%nat && List.forallb is_string items
      | _ => false
      end
  | f_session => one_of sessions v
  | f_automationLevel => one_of automationLevels v
  end.

Definition rule (f : field) (o : gmap string jsval) : bool :=
  rule_on f (get o (field_name f)).

(** All rules at once: there is no partial validity. *)
Definition valid (o : gmap string jsval) : bool :=
  List.forallb (fun f => rule f o) priority.

(** The first rule, in priority order, that the payload breaks. *)
Definition first_failing (o : gmap string jsval) : option field :=
  List.find (fun f => negb (rule f o)) priority.

(** What zod checks for a field: the schema under its key, and the issues
    it raises on the payload. *)
Definition field_schema (f : field) : schema :=
  match strategySchema with
  | z_object shape =>
      match List.find (fun e => String.eqb (fst e) (field_name f)) shape with
      | Some e => snd e
      | None => z_string
      end
  | _ => z_string
  end.

Definition field_issues (f : field) (o : gmap string jsval) : list issue :=
  issues (field_schema f) [PKey (field_name f)] (get o (field_name f)).

(** [reads o p]: the six known properties of the object [o] hold the
    fields of the typed input [p]. *)
Definition reads (o : gmap string jsval) (p : StrategyInput) : Prop :=
  get o "profile" = JStr (profile p)
  /\ get o "capital" = JNum (capital p)
  /\ get o "riskPerTrade" = JNum (riskPerTrade p)
  /\ get o "indicators" = JArr (List.map JStr (indicators p))
  /\ get o "session" = JStr (session p)
  /\ get o "automationLevel" = JStr (automationLevel p).

(** Position of a field in the priority order. *)
Definition rank (f : field) : nat :=
  match f with
  | f_profile => 0 | f_capital => 1 | f_riskPerTrade => 2
  | f_indicators => 3 | f_session => 4 | f_automationLevel => 5
  end.

(** The validator accepts a payload when [parse] returns it. *)
Definition accepted (payload : jsval) : Prop :=
  parse strategySchema payload = Parsed payload.

(** The issues zod raises for a capital below 100, a risk outside
    [0.1, 5] and an empty list of indicators. *)
Definition capital_issue : issue :=
  {| code := too_small_number (lit "100"); path := [PKey "capital"] |}.
Definition risk_low_issue : issue :=
  {| code := too_small_number (lit "0.1"); path := [PKey "riskPerTrade"] |}.
Definition risk_high_issue : issue :=
  {| code := too_big_number (lit "5"); path := [PKey "riskPerTrade"] |}.
Definition indicators_issue : issue :=
  {| code := too_small_array 1; path := [PKey "indicators"] |}.

(** The JavaScript object holding a typed input. *)
Definition object_of (p : StrategyInput) : gmap string jsval :=
  {[ "profile" := JStr (profile p);
     "capital" := JNum (capital p);
     "riskPerTrade" := JNum (riskPerTrade p);
     "indicators" := JArr (List.map JStr (indicators p));
     "session" := JStr (session p);
     "automationLevel" := JStr (automationLevel p) ]}.

End Rules.

(* ===================================================================== *)
(** * Payloads used in the scenarios *)
(* ===================================================================== *)

Module Scenarios.
Import Zod Page Rules.

(** The specification names the enumeration values in English; these are
    the strings of the schema they stand for. *)
Definition Scalping : string := "Scalping".
Definition DayTrade : string := "Day Trade".
Definition Swing : string := "Swing".
Definition London : string := "Londres".
Definition NewYork : string := "Nova York".
Definition Tokyo : string := "Tóquio".
Definition Manual : string := "Manual".
Definition SemiAutonomous : string := "Semi-Autônomo".
Definition Full : string := "Total".

(** One indicator that is not in [indicatorOptions]. *)
Definition off_catalog : gmap string jsval :=
  <["indicators" := JArr [JStr "EMA"]]> defaultState.

(** A capital below the minimum under a profile that is not in the
    enumeration. *)
Definition low_capital_bad_profile : gmap string jsval :=
  <["profile" := JStr "Position"]> (<["capital" := JNum (lit "50")]> defaultState).

(** The default state with every indicator unticked. *)
Definition no_indicators : gmap string jsval :=
  <["indicators" := JArr []]> defaultState.

(** The default state with a capital of 10^24. *)
Definition huge_capital : gmap string jsval :=
  <["capital" := JNum (lit "1e24")]> defaultState.

(** The first numeric scenario of the specification. *)
Definition day_trade_scenario : StrategyInput :=
  {| profile := DayTrade; capital := lit "1000"; riskPerTrade := lit "1";
     indicators := ["EMA"]; session := London;
     automationLevel := SemiAutonomous |}.

(** The second one, whose remaining fields are left open. *)
Definition scalping_scenario (l : list string) (s a : string) : StrategyInput :=
  {| profile := Scalping; capital := lit "2000"; riskPerTrade := lit "2";
     indicators := l; session := s; automationLevel := a |}.

(** Two broken rules: capital and indicators. *)
Definition two_failures : gmap string jsval :=
  <["capital" := JNum (lit "50")]> (<["indicators" := JArr []]> defaultState).

End Scenarios.

(* ===================================================================== *)
(** * What a message tells *)
(* ===================================================================== *)

Module Messages.
Import Zod Page Rules.

(** [starts_with p s]: the text [s] begins with [p]. *)
Fixpoint starts_with (p s : string) : bool :=
  match p with
  | EmptyString => true
  | String a p' =>
      match s with
      | String b s' => Ascii.eqb a b && starts_with p' s'
      | EmptyString => false
      end
  end.

(** The two texts that several rules share: the one of a missing value and
    the one of a value that should be a number and is not. *)
Definition shared_message (m : string) : bool :=
  String.eqb m "Required" || starts_with "Expected number, received " m.

(** The rule a message speaks of, read off its text: the options it lists,
    the bound it names, or the array it asks for. *)
Definition rule_of_message (m : string) : option field :=
  if starts_with "Expected 'Scalping'" m
     || starts_with "Invalid enum value. Expected 'Scalping'" m
  then Some f_profile
  else if String.eqb m "Number must be greater than or equal to 100"
  then Some f_capital
  else if String.eqb m "Number must be greater than or equal to 0.1"
          || String.eqb m "Number must be less than or equal to 5"
  then Some f_riskPerTrade
  else if starts_with "Expected array, received " m
          || String.eqb m "Array must contain at least 1 element(s)"
          || starts_with "Expected string, received " m
  then Some f_indicators
  else if starts_with "Expected 'Londres'" m
          || starts_with "Invalid enum value. Expected 'Londres'" m
  then Some f_session
  else if starts_with "Expected 'Manual'" m
          || starts_with "Invalid enum value. Expected 'Manual'" m
  then Some f_automationLevel
  else None.

(** The empty payload, and the default state without its capital. *)
Definition empty_payload : gmap string jsval := ∅.

Definition no_capital : gmap string jsval := delete "capital" defaultState.

(** The default state with a text for capital, and with a text for the
    risk. *)
Definition text_capital : gmap string jsval :=
  <["capital" := JStr "1000"]> defaultState.

Definition text_risk : gmap string jsval :=
  <["riskPerTrade" := JStr "1"]> defaultState.

End Messages.

(* ===================================================================== *)
(** * Number(text) on arbitrary text *)
(* ===================================================================== *)

Module NumberText.
Import Num.

(** Strings hold the UTF-8 encoding of a text. These are the encodings of
    the characters that StringToNumber skips at both ends (StrWhiteSpaceChar):
    TAB, LF, VT, FF, CR, SP, U+00A0, U+1680, U+2000 to U+200A, U+2028, U+2029,
    U+202F, U+205F, U+3000 and U+FEFF. *)
Definition white_space : list (list ascii) :=
  List.map (List.map ascii_of_nat)
    [ [9]; [10]; [11]; [12]; [13]; [32]; [194; 160]; [225; 154; 128];
      [226; 128; 128]; [226; 128; 129]; [226; 128; 130]; [226; 128; 131];
      [226; 128; 132]; [226; 128; 133]; [226; 128; 134]; [226; 128; 135];
      [226; 128; 136]; [226; 128; 137]; [226; 128; 138]; [226; 128; 168];
      [226; 128; 169]; [226; 128; 175]; [226; 129; 159]; [227; 128; 128];
      [239; 187; 191] ]%nat.

(** [strip p s]: [s] without its prefix [p], if it starts with [p]. *)
Fixpoint strip (p s : list ascii) : option (list ascii) :=
  match p with
  | [] => Some s
  | c :: p' =>
      match s with
      | d :: s' => if Ascii.eqb c d then strip p' s' else None
      | [] => None
      end
  end.

(** [s] without one leading sequence of [table], if it starts with one. *)
Fixpoint strip_any (table : list (list ascii)) (s : list ascii)
  : option (list ascii) :=
  match table with
  | [] => None
  | p :: rest =>
      match strip p s with
      | Some r => Some r
      | None => strip_any rest s
      end
  end.

Fixpoint skip (fuel : nat) (table : list (list ascii)) (s : list ascii)
  : list ascii :=
  match fuel with
  | O => s
  | S fuel' =>
      match strip_any table s with
      | Some r => skip fuel' table r
      | None => s
      end
  end.

(** The text without white space at either end; the trailing one is
    skipped on the reversed bytes. *)
Definition trim (s : string) : string :=
  let l := list_ascii_of_string s in
  let l1 := skip (List.length l) white_space l in
  let l2 := skip (List.length l1) (List.map (@List.rev ascii) white_space)
              (List.rev l1) in
  string_of_list_ascii (List.rev l2).

(** The value of a digit of a non-decimal literal (hexadecimal at most). *)
Definition digit_value (c : ascii) : option Z :=
  let n := Z.of_nat (nat_of_ascii c) in
  if ((48 <=? n) && (n <=? 57))%Z then Some (n - 48)%Z
  else if ((97 <=? n) && (n <=? 102))%Z then Some (n - 87)%Z
  else if ((65 <=? n) && (n <=? 70))%Z then Some (n - 55)%Z
  else None.

Fixpoint radix_value (radix acc : Z) (s : string) : option Z :=
  match s with
  | EmptyString => Some acc
  | String c r =>
      match digit_value c with
      | Some d =>
          if (d <? radix)%Z then radix_value radix (radix * acc + d) r
          else None
      | None => None
      end
  end.

(** The radix announced by the letter after a leading 0. *)
Definition radix_of (c : ascii) : option Z :=
  if (Ascii.eqb c "x" || Ascii.eqb c "X")%bool then Some 16%Z
  else if (Ascii.eqb c "o" || Ascii.eqb c "O")%bool then Some 8%Z
  else if (Ascii.eqb c "b" || Ascii.eqb c "B")%bool then Some 2%Z
  else None.

(** [Number(text)] for any text: white space is skipped at both ends; an
    unsigned 0x, 0o or 0b literal is read in its radix; the rest is the
    decimal reading of [Num.Number]. *)
Definition StringToNumber (s : string) : num :=
  let t := trim s in
  match t with
  | String "0" (String c (String d r)) =>
      match radix_of c with
      | Some radix =>
          match radix_value radix 0 (String d r) with
          | Some v => of_Z v
          | None => S754_nan
          end
      | None => Number t
      end
  | _ => Number t
  end.

End NumberText.

(* ===================================================================== *)
(** * The controls of the form *)
(* ===================================================================== *)

Module Interaction.
Import Zod Page Rules.

(** The three [useState(null)]. *)
Definition initial : state :=
  {| form := None; error := None; result := None |}.

(** [const currentState = form ?? defaultState]. *)
Definition currentState (st : state) : gmap string jsval :=
  default defaultState (form st).

Definition parseNumber (value : string) (fallback : Num.num) : Num.num :=
  let parsed := NumberText.StringToNumber value in
  if Num.isFinite parsed then parsed else fallback.

(** A property read at the type [number] ([defaultState.capital]). *)
Definition number_at (o : gmap string jsval) (key : string) : Num.num :=
  match get o key with
  | JNum x => x
  | _ => S754_nan
  end.

(** [item === option], for a string [option]. *)
Definition is_option (option : string) (item : jsval) : bool :=
  match item with
  | JStr s => String.eqb s option
  | _ => false
  end.

(** [indicators.includes(option)] and
    [indicators.filter(item => item !== option)]. *)
Definition includes (items : list jsval) (option : string) : bool :=
  List.existsb (is_option option) items.

Definition without (option : string) (items : list jsval) : list jsval :=
  List.filter (fun item => negb (is_option option item)) items.

(** The [onChange] and [onClick] handlers of the controls. *)
Definition onProfileChange (value : string) (st : state) : state :=
  handleChange {[ "profile" := JStr value ]} st.

Definition onCapitalChange (value : string) (st : state) : state :=
  handleChange
    {[ "capital" := JNum (parseNumber value (number_at defaultState "capital")) ]}
    st.

Definition onRiskChange (value : string) (st : state) : state :=
  handleChange
    {[ "riskPerTrade" :=
         JNum (parseNumber value (number_at defaultState "riskPerTrade")) ]}
    st.

Definition onSessionChange (value : string) (st : state) : state :=
  handleChange {[ "session" := JStr value ]} st.

(** The check box of [option]. The list of indicators is an array in every
    state the setters build; on anything else [includes] would throw and the
    state would stay as it is. *)
Definition onIndicatorToggle (option : string) (st : state) : state :=
  match get (currentState st) "indicators" with
  | JArr items =>
      handleChange
        {[ "indicators" :=
             JArr (if includes items option then without option items
                   else (items ++ [JStr option])%list) ]}
        st
  | _ => st
  end.

Definition onAutomationClick (level : string) (st : state) : state :=
  handleChange {[ "automationLevel" := JStr level ]} st.

(** The reset button: [setForm({ ...defaultState })], [setResult(null)],
    [setError(null)]. *)
Definition onReset (st : state) : state :=
  {| form := Some defaultState; error := None; result := None |}.

(** What the user can do, and what each control offers: the two selects
    their three options, the check boxes the five of [indicatorOptions], the
    buttons the three automation levels; the two number fields any text. *)
Inductive event : Type :=
| ProfileChange (value : string)
| CapitalChange (value : string)
| RiskChange (value : string)
| SessionChange (value : string)
| IndicatorToggle (option : string)
| AutomationClick (level : string)
| GenerateClick
| ResetClick.

Definition member (s : string) (options : list string) : bool :=
  List.existsb (String.eqb s) options.

Definition offered (e : event) : bool :=
  match e with
  | ProfileChange value => member value ["Scalping"; "Day Trade"; "Swing"]
  | SessionChange value => member value ["Londres"; "Nova York"; "Tóquio"]
  | IndicatorToggle option => member option indicatorOptions
  | AutomationClick level => member level ["Manual"; "Semi-Autônomo"; "Total"]
  | CapitalChange _ | RiskChange _ | GenerateClick | ResetClick => true
  end.

Definition step (st : state) (e : event) : state :=
  match e with
  | ProfileChange value => onProfileChange value st
  | CapitalChange value => onCapitalChange value st
  | RiskChange value => onRiskChange value st
  | SessionChange value => onSessionChange value st
  | IndicatorToggle option => onIndicatorToggle option st
  | AutomationClick level => onAutomationClick level st
  | GenerateClick => handleGenerate st
  | ResetClick => onReset st
  end.

(** The state after a run of events, the earliest first. *)
Definition run (events : list event) (st : state) : state :=
  List.fold_left step events st.

(** The forms the controls can build: enumerations within their options,
    finite numbers, indicators from the catalog without repetition. *)
Definition well_formed (o : gmap string jsval) : Prop :=
  one_of profiles (get o "profile") = true
  /\ (exists x, get o "capital" = JNum x /\ Num.isFinite x = true)
  /\ (exists x, get o "riskPerTrade" = JNum x /\ Num.isFinite x = true)
  /\ (exists l, get o "indicators" = JArr (List.map JStr l)
                /\ NoDup l /\ incl l indicatorOptions)
  /\ one_of sessions (get o "session") = true
  /\ one_of automationLevels (get o "automationLevel") = true.

(** The only messages a form built by the controls can meet. *)
Definition form_messages : list string :=
  [ message capital_issue; message risk_low_issue; message risk_high_issue;
    message indicators_issue ].

(** What holds of the three pieces of state along every run: the form is
    well formed, the error is one of the four messages, and the result is
    the report of a well-formed form that passed validation. *)
Definition error_known (e : option string) : Prop :=
  e = None \/ exists m, e = Some m /\ In m form_messages.

Definition result_built (r : option string) : Prop :=
  r = None
  \/ exists o p, well_formed o /\ valid o = true /\ reads o p
                 /\ r = Some (buildStrategy p).

Definition invariant (st : state) : Prop :=
  well_formed (currentState st) /\ error_known (error st)
  /\ result_built (result st).

(** Two states that show the same: the same current form, error and
    result. *)
Definition same_view (a b : state) : Prop :=
  currentState a = currentState b /\ error a = error b /\ result a = result b.

End Interaction.

(* ===================================================================== *)
(** * Facts about Numbers and their renderings *)
(* ===================================================================== *)

Section NumFacts.
Import Num.

(** ** The model on known values *)

Example literal_tenth :
  Number "0.1" = S754_finite false 7205759403792794 (-56).
Proof. vm_compute. reflexivity. Qed.

Example tenth_times_three :
  toString (mul (Number "0.1") (Number "3")) = "0.30000000000000004".
Proof. vm_compute. reflexivity. Qed.

Example toFixed_ties :
  toFixed 0 (Number "2.5") = "3"
  /\ toFixed 0 (Number "-2.5") = "-3"
  /\ toFixed 2 (Number "1.005") = "1.00"
  /\ toFixed 2 (Number "-0.001") = "-0.00".
Proof. repeat split; vm_compute; reflexivity. Qed.

Example toString_notations :
  toString (Number "123456789012345680000") = "123456789012345680000"
  /\ toString (Number "1e21") = "1e+21"
  /\ toString (Number "0.000001") = "0.000001"
  /\ toString (Number "0.0000001") = "1e-7"
  /\ toString (Number "-12.5") = "-12.5".
Proof. repeat split; vm_compute; reflexivity. Qed.

Example Number_of_text :
  Number "" = S754_zero false
  /\ Number "-0.00" = S754_zero true
  /\ Number "Infinity" = S754_infinity false
  /\ Number "1e400" = S754_infinity false
  /\ Number "abc" = S754_nan.
Proof. repeat split; vm_compute; reflexivity. Qed.

(** ** Digits and decimals *)

Lemma lt_irrefl_nan (y : num) : lt S754_nan y = false.
Proof. destruct y; reflexivity. Qed.

Lemma is_digit_digit_char (d : Z) :
  (0 <= d < 10)%Z -> is_digit (digit_char d) = true.
Proof.
  intros H.
  assert (d = 0 \/ d = 1 \/ d = 2 \/ d = 3 \/ d = 4 \/ d = 5 \/ d = 6
          \/ d = 7 \/ d = 8 \/ d = 9)%Z as Hd by lia.
  repeat (destruct Hd as [-> | Hd]; [reflexivity|]). subst d. reflexivity.
Qed.

Lemma all_digits_app (a b : string) :
  all_digits (a +:+ b) = all_digits a && all_digits b.
Proof.
  induction a as [|c a IH]; [reflexivity|].
  change (String c a +:+ b) with (String c (a +:+ b)).
  cbn [all_digits]. rewrite IH. destruct (is_digit c); reflexivity.
Qed.

Lemma all_digits_zeros (n : nat) : all_digits (zeros n) = true.
Proof. induction n as [|n IH]; [reflexivity | exact IH]. Qed.

Lemma all_digits_digits_aux (fuel : nat) (n : Z) (acc : string) :
  all_digits acc = true -> all_digits (digits_aux fuel n acc) = true.
Proof.
  revert n acc. induction fuel as [|fuel IH]; intros n acc Hacc; cbn [digits_aux].
  - exact Hacc.
  - assert (all_digits (String (digit_char (n mod 10)) acc) = true) as H.
    { cbn [all_digits]. rewrite Hacc, is_digit_digit_char; [reflexivity|].
      apply Z.mod_pos_bound. lia. }
    destruct (n <? 10)%Z; [exact H | apply IH; exact H].
Qed.

Lemma all_digits_digits (n : Z) : all_digits (digits n) = true.
Proof. apply all_digits_digits_aux. reflexivity. Qed.

Lemma length_digits_aux (fuel : nat) (n : Z) (acc : string) :
  (String.length acc <= String.length (digits_aux fuel n acc))%nat.
Proof.
  revert n acc. induction fuel as [|fuel IH]; intros n acc; cbn [digits_aux].
  - lia.
  - destruct (n <? 10)%Z; [cbn; lia|].
    specialize (IH (n / 10)%Z (String (digit_char (n mod 10)) acc)).
    cbn [String.length] in IH. lia.
Qed.

Lemma length_digits (n : Z) : (1 <= String.length (digits n))%nat.
Proof.
  unfold digits. cbn [digits_aux].
  destruct (n <? 10)%Z; [cbn; lia|].
  pose proof (length_digits_aux (Z.to_nat (Z.log2 n)) (n / 10)
                (String (digit_char (n mod 10)) "")) as H.
  cbn [String.length] in H. lia.
Qed.

Lemma length_app (a b : string) :
  String.length (a +:+ b) = (String.length a + String.length b)%nat.
Proof.
  induction a as [|c a IH]; [reflexivity|].
  change (String c a +:+ b) with (String c (a +:+ b)).
  cbn [String.length]. rewrite IH. reflexivity.
Qed.

Lemma all_digits_substring (i j : nat) (s : string) :
  all_digits s = true -> all_digits (substring i j s) = true.
Proof.
  revert i j. induction s as [|c s IH]; intros i j H.
  - destruct i, j; reflexivity.
  - cbn [all_digits] in H. apply andb_prop in H as [Hc Hs].
    destruct i as [|i]; [destruct j as [|j]|]; cbn [substring].
    + reflexivity.
    + cbn [all_digits]. rewrite Hc, (IH 0%nat j Hs). reflexivity.
    + apply IH. exact Hs.
Qed.

Lemma length_substring (i j : nat) (s : string) :
  (i + j <= String.length s)%nat -> String.length (substring i j s) = j.
Proof.
  revert i j. induction s as [|c s IH]; intros i j H; cbn [String.length] in H.
  - assert (i = 0 /\ j = 0)%nat as [-> ->] by lia. reflexivity.
  - destruct i as [|i]; [destruct j as [|j]|]; cbn [substring String.length].
    + reflexivity.
    + rewrite (IH 0%nat j); [reflexivity | lia].
    + apply IH. lia.
Qed.

Lemma span_digits_point (a b : string) :
  all_digits a = true -> span_digits (a +:+ String "." b) = (a, String "." b).
Proof.
  induction a as [|c a IH]; intros H.
  - reflexivity.
  - cbn [all_digits] in H. apply andb_prop in H as [Hc Ha].
    change (String c a +:+ String "." b) with (String c (a +:+ String "." b)).
    cbn [span_digits]. rewrite Hc, (IH Ha). reflexivity.
Qed.

(** Below 10^21, [toFixed(2)] writes digits, a point and two digits. *)
Lemma fixed_digits_two (n : Z) : two_decimals (fixed_digits 2 n) = true.
Proof.
  unfold fixed_digits.
  set (m := if (n =? 0)%Z then "0" else digits n).
  assert (all_digits m = true /\ (1 <= String.length m)%nat) as [Hm Hlen].
  { unfold m. destruct (n =? 0)%Z; [split; [reflexivity | cbn; lia]|].
    split; [apply all_digits_digits | apply length_digits]. }
  set (m' := zeros (2 + 1 - String.length m) +:+ m).
  assert (all_digits m' = true) as Hm'
      by (unfold m'; rewrite all_digits_app, all_digits_zeros, Hm; reflexivity).
  assert (3 <= String.length m')%nat as Hlen'.
  { unfold m'. rewrite length_app.
    assert (forall k, String.length (zeros k) = k) as Hz
        by (induction k as [|k IHk]; cbn; [reflexivity | rewrite IHk; reflexivity]).
    rewrite Hz. lia. }
  cbv zeta. fold m'.
  change (substring 0 (String.length m' - 2) m' +:+ "."
          +:+ substring (String.length m' - 2) 2 m')
    with (substring 0 (String.length m' - 2) m'
          +:+ String "." (substring (String.length m' - 2) 2 m')).
  unfold two_decimals.
  rewrite span_digits_point by (apply all_digits_substring; exact Hm').
  rewrite all_digits_substring by exact Hm'.
  rewrite length_substring by lia.
  destruct (substring 0 (String.length m' - 2) m') as [|c r] eqn:E.
  - pose proof (length_substring 0 (String.length m' - 2) m') as Hl.
    rewrite E in Hl. cbn in Hl. lia.
  - reflexivity.
Qed.

Lemma to_Q_positive (m : positive) (e : Z) :
  (0 < to_Q (S754_finite false m e))%Q.
Proof.
  cbn [to_Q cond_Zopp]. apply Qmult_lt_0_compat.
  - reflexivity.
  - apply Qpower_0_lt. reflexivity.
Qed.

Lemma to_Q_negative (m : positive) (e : Z) :
  (to_Q (S754_finite true m e) < 0)%Q.
Proof.
  pose proof (to_Q_positive m e) as H. cbn [to_Q cond_Zopp] in *.
  assert (inject_Z (- Z.pos m) * 2 ^ e == - (inject_Z (Z.pos m) * 2 ^ e))%Q as E
      by (rewrite inject_Z_opp; ring).
  rewrite E. lra.
Qed.

(** A non-negative Number below 10^21 is written by [toFixed(2)] with
    exactly two decimals. *)
Lemma toFixed_two_decimals (x : num) :
  negative x = false -> lt x (Number "1e21") = true ->
  two_decimals (toFixed 2 x) = true.
Proof.
  remember (Number "1e21") as y eqn:Hy. vm_compute in Hy.
  destruct x as [s|s| |s m e]; cbn [negative]; intros Hs Hlt; subst y; try subst s.
  - vm_compute. reflexivity.
  - discriminate Hlt.
  - discriminate Hlt.
  - cbn [lt] in Hlt. unfold Qltb in Hlt.
    pose proof (to_Q_positive m e) as Hpos.
    unfold toFixed.
    set (q := to_Q (S754_finite false m e)) in *.
    assert (Qltb q 0 = false) as ->.
    { unfold Qltb. replace (Qle_bool 0 q) with true; [reflexivity|].
      symmetry. apply Qle_bool_iff. lra. }
    assert (Qle_bool (pow10 21) (Qabs q) = false) as ->.
    { destruct (Qle_bool (pow10 21) (Qabs q)) eqn:E; [|reflexivity].
      apply Qle_bool_iff in E. rewrite Qabs_pos in E by lra.
      apply negb_true_iff in Hlt.
      match type of Hlt with
      | Qle_bool ?c q = false =>
          assert (c == pow10 21)%Q as Hc by (vm_compute; reflexivity);
          assert (Qle_bool c q = true) as C
              by (apply Qle_bool_iff; rewrite Hc; exact E)
      end.
      congruence. }
    apply fixed_digits_two.
Qed.

(** ** Signs *)

Lemma round_sign (s : bool) (m e : Z) (l : location) :
  negative (binary_round_aux prec emax s m e l) = s
  \/ binary_round_aux prec emax s m e l = S754_nan.
Proof.
  unfold binary_round_aux.
  destruct (shr_fexp prec emax m e l) as [mrs' e'].
  destruct (shr_fexp prec emax _ e' loc_Exact) as [mrs'' e''].
  destruct (shr_m mrs'') as [|p|p].
  - left. reflexivity.
  - destruct (e'' <=? emax - prec)%Z; left; reflexivity.
  - right. reflexivity.
Qed.

Lemma mul_nonnegative (x y : num) :
  negative x = false -> negative y = false -> negative (mul x y) = false.
Proof.
  destruct x as [sx|sx| |sx mx ex], y as [sy|sy| |sy my ey];
    cbn [negative]; intros Hx Hy; subst; try reflexivity.
  unfold mul, SFmul. cbn [xorb].
  destruct (round_sign false (Z.pos (mx * my)) (ex + ey) loc_Exact) as [H | H];
    rewrite H; reflexivity.
Qed.

Lemma div_nonnegative (x y : num) :
  negative x = false -> negative y = false -> negative (div x y) = false.
Proof.
  destruct x as [sx|sx| |sx mx ex], y as [sy|sy| |sy my ey];
    cbn [negative]; intros Hx Hy; subst; try reflexivity.
  unfold div, SFdiv. cbn [xorb].
  destruct (SFdiv_core_binary prec emax (Z.pos mx) ex (Z.pos my) ey)
    as [[mz ez] lz].
  destruct (round_sign false mz ez lz) as [H | H]; rewrite H; reflexivity.
Qed.

(** A Number that is at least a positive one is not negative. *)
Lemma ge_positive_nonnegative (x : num) (m : positive) (e : Z) :
  ge x (S754_finite false m e) = true -> negative x = false.
Proof.
  unfold ge, le. cbn [isNaN negb andb].
  pose proof (to_Q_positive m e) as Hpos.
  destruct x as [s|s| |s mx ex]; cbn [isNaN negb andb negative lt].
  - unfold Qltb. change (to_Q (S754_zero s)) with 0%Q.
    replace (Qle_bool (to_Q (S754_finite false m e)) 0) with false;
      [cbn [negb]; discriminate|].
    symmetry. destruct (Qle_bool _ 0) eqn:E; [|reflexivity].
    apply Qle_bool_iff in E. lra.
  - destruct s; [discriminate | reflexivity].
  - reflexivity.
  - destruct s; [|reflexivity].
    pose proof (to_Q_negative mx ex) as Hneg.
    unfold Qltb.
    replace (Qle_bool (to_Q (S754_finite false m e)) (to_Q (S754_finite true mx ex)))
      with false; [cbn [negb]; discriminate|].
    symmetry. destruct (Qle_bool _ _) eqn:E; [|reflexivity].
    apply Qle_bool_iff in E. lra.
Qed.

(** From 10^21 on, and for the infinities and NaN, [toFixed] gives the
    plain Number-to-string conversion. *)
Lemma toFixed_large (f : nat) (x : num) :
  negative x = false -> lt x (Number "1e21") = false ->
  toFixed f x = toString x.
Proof.
  remember (Number "1e21") as y eqn:Hy. vm_compute in Hy.
  destruct x as [s|s| |s m e]; cbn [negative]; intros Hs Hlt; subst y; try subst s.
  - discriminate Hlt.
  - reflexivity.
  - reflexivity.
  - cbn [lt] in Hlt. unfold Qltb in Hlt. apply negb_false_iff in Hlt.
    pose proof (to_Q_positive m e) as Hpos.
    unfold toFixed.
    set (q := to_Q (S754_finite false m e)) in *.
    assert (Qltb q 0 = false) as ->.
    { unfold Qltb. replace (Qle_bool 0 q) with true; [reflexivity|].
      symmetry. apply Qle_bool_iff. lra. }
    assert (Qle_bool (pow10 21) (Qabs q) = true) as ->.
    { apply Qle_bool_iff. rewrite Qabs_pos by lra.
      apply Qle_bool_iff in Hlt.
      match type of Hlt with
      | (?c <= q)%Q =>
          assert (c == pow10 21)%Q as Hc by (vm_compute; reflexivity);
          rewrite <- Hc; exact Hlt
      end. }
    reflexivity.
Qed.

(** Below a finite bound, below every greater finite bound. *)
Lemma le_lt_finite (x : num) (sy sz : bool) (my mz : positive) (ey ez : Z) :
  le x (S754_finite sy my ey) = true ->
  lt (S754_finite sy my ey) (S754_finite sz mz ez) = true ->
  lt x (S754_finite sz mz ez) = true.
Proof.
  unfold le. cbn [isNaN negb andb lt].
  destruct x as [s|s| |s m e]; cbn [isNaN negb andb lt]; try discriminate.
  - change (to_Q (S754_zero s)) with 0%Q. unfold Qltb.
    rewrite !negb_true_iff. intros H1 H2.
    destruct (Qle_bool (to_Q (S754_finite sz mz ez)) 0) eqn:E; [|reflexivity].
    apply Qle_bool_iff in E.
    assert (Qle_bool (to_Q (S754_finite sz mz ez)) (to_Q (S754_finite sy my ey)) = true)
      as C; [|congruence].
    apply Qle_bool_iff.
    destruct (Qle_bool 0 (to_Q (S754_finite sy my ey))) eqn:E'; [|discriminate].
    apply Qle_bool_iff in E'. lra.
  - destruct s; [reflexivity | discriminate].
  - unfold Qltb. rewrite negb_involutive, !negb_true_iff. intros H1 H2.
    apply Qle_bool_iff in H1.
    destruct (Qle_bool (to_Q (S754_finite sz mz ez)) (to_Q (S754_finite s m e))) eqn:E;
      [|reflexivity].
    apply Qle_bool_iff in E.
    assert (Qle_bool (to_Q (S754_finite sz mz ez)) (to_Q (S754_finite sy my ey)) = true)
      as C; [|congruence].
    apply Qle_bool_iff. lra.
Qed.

End NumFacts.

(* ===================================================================== *)
(** * Properties of the validator *)
(* ===================================================================== *)

Section Validator.
Import Zod Page Rules.

Lemma issues_by_field (o : gmap string jsval) :
  issues strategySchema [] (JObj o)
  = List.flat_map (fun f => field_issues f o) priority.
Proof. cbn. rewrite !app_nil_r. reflexivity. Qed.

Lemma string_items_issues (path : list path_elem) (items : list jsval) (i : nat) :
  items_issues (issues z_string) path i items = []
  <-> List.forallb is_string items = true.
Proof.
  revert i. induction items as [|v rest IH]; intros i; cbn.
  - tauto.
  - destruct v; cbn; try (split; [discriminate | discriminate]).
    apply IH.
Qed.

Lemma enum_issues (values : list string) (path : list path_elem) (v : jsval) :
  issues (z_enum values) path v = [] <-> one_of values v = true.
Proof.
  destruct v; cbn; try (split; discriminate).
  destruct (List.existsb (String.eqb s) values); split; congruence.
Qed.

Lemma number_min_issues (path : list path_elem) (lo : Num.num) (v : jsval) :
  Num.isNaN lo = false ->
  issues (z_number [check_min lo]) path v = []
  <-> match v with JNum x => Num.ge x lo | _ => false end = true.
Proof.
  intros Hlo. destruct v as [| | |x| | |]; try (cbn; split; discriminate).
  cbn [issues List.flat_map check_issue app].
  unfold Num.ge, Num.le. rewrite Hlo.
  destruct (Num.isNaN x); [cbn; split; discriminate|].
  destruct (Num.lt x lo); cbn; split; congruence.
Qed.

Lemma number_range_issues (path : list path_elem) (lo hi : Num.num) (v : jsval) :
  Num.isNaN lo = false -> Num.isNaN hi = false ->
  issues (z_number [check_min lo; check_max hi]) path v = []
  <-> match v with JNum x => Num.ge x lo && Num.le x hi | _ => false end = true.
Proof.
  intros Hlo Hhi. destruct v as [| | |x| | |]; try (cbn; split; discriminate).
  cbn [issues List.flat_map check_issue app].
  unfold Num.ge, Num.le, Num.gt. rewrite Hlo, Hhi.
  destruct (Num.isNaN x); [cbn; split; discriminate|].
  destruct (Num.lt x lo); [cbn; split; discriminate|].
  destruct (Num.lt hi x); cbn; split; congruence.
Qed.

Lemma string_array_issues (path : list path_elem) (n : nat) (v : jsval) :
  issues (z_array z_string (Some n)) path v = []
  <-> match v with
      | JArr items => (n <=? List.length items)%nat && List.forallb is_string items
      | _ => false
      end = true.
Proof.
  destruct v as [| | | | |items|]; try (cbn; split; discriminate).
  change (issues (z_array z_string (Some n)) path (JArr items))
    with ((if (List.length items <? n)%nat
           then [ {| code := too_small_array n; path := path |} ] else [])
          ++ items_issues (issues z_string) path 0 items)%list.
  rewrite Nat.ltb_antisym.
  destruct (n <=? List.length items)%nat; cbn [negb andb app].
  - apply string_items_issues.
  - split; discriminate.
Qed.

(** A field raises no issue exactly when its rule holds. *)
Lemma field_issues_rule (f : field) (o : gmap string jsval) :
  field_issues f o = [] <-> rule f o = true.
Proof.
  unfold field_issues, rule.
  destruct f; cbn [field_name rule_on].
  - apply enum_issues.
  - apply number_min_issues. reflexivity.
  - apply number_range_issues; reflexivity.
  - apply string_array_issues.
  - apply enum_issues.
  - apply enum_issues.
Qed.

(** Where an issue of a field points: at the field's key, or below it. *)
Lemma enum_issue_path (values : list string) (p : list path_elem) (v : jsval)
    (i : issue) :
  In i (issues (z_enum values) p v) -> path i = p.
Proof.
  destruct v; cbn; try (intros [<- | []]; reflexivity).
  destruct (List.existsb _ _); cbn; [tauto | intros [<- | []]; reflexivity].
Qed.

Lemma number_issue_path (checks : list number_check) (p : list path_elem)
    (v : jsval) (i : issue) :
  In i (issues (z_number checks) p v) -> path i = p.
Proof.
  destruct v as [| | |x| | |]; cbn [issues]; try (intros [<- | []]; reflexivity).
  destruct (Num.isNaN x); [intros [<- | []]; reflexivity|].
  rewrite in_flat_map. intros (c & _ & Hi).
  destruct c; cbn in Hi.
  - destruct (Num.lt x value); [destruct Hi as [<- | []]; reflexivity | destruct Hi].
  - destruct (Num.gt x value); [destruct Hi as [<- | []]; reflexivity | destruct Hi].
Qed.

Lemma string_items_issue_path (p : list path_elem) (items : list jsval)
    (k : nat) (i : issue) :
  In i (items_issues (issues z_string) p k items) ->
  exists j, path i = (p ++ [PIndex j])%list.
Proof.
  revert k. induction items as [|v rest IH]; intros k; cbn [items_issues].
  - intros [].
  - rewrite in_app_iff. intros [Hi | Hi]; [|eauto].
    exists k. destruct v; cbn in Hi; try destruct Hi as [<- | []]; try reflexivity.
    destruct Hi.
Qed.

Lemma string_array_issue_path (n : nat) (p : list path_elem) (v : jsval)
    (i : issue) :
  In i (issues (z_array z_string (Some n)) p v) ->
  exists rest, path i = (p ++ rest)%list.
Proof.
  destruct v as [| | | | |items|];
    try (cbn; intros [<- | []]; exists []; cbn; symmetry; apply app_nil_r).
  change (issues (z_array z_string (Some n)) p (JArr items))
    with ((if (List.length items <? n)%nat
           then [ {| code := too_small_array n; path := p |} ] else [])
          ++ items_issues (issues z_string) p 0 items)%list.
  rewrite in_app_iff. intros [Hi | Hi].
  - destruct (_ <? _)%nat; [|destruct Hi].
    destruct Hi as [<- | []]. exists []. cbn. symmetry. apply app_nil_r.
  - apply string_items_issue_path in Hi as [j Hj]. eauto.
Qed.

Lemma field_issue_path (f : field) (o : gmap string jsval) (i : issue) :
  In i (field_issues f o) -> hd_error (path i) = Some (PKey (field_name f)).
Proof.
  unfold field_issues. intros Hi.
  destruct f;
    first [ apply enum_issue_path in Hi; rewrite Hi; reflexivity
          | apply number_issue_path in Hi; rewrite Hi; reflexivity
          | apply string_array_issue_path in Hi as [rest ->]; reflexivity ].
Qed.

(** The head of the issues of an object is the head of the issues of the
    first field that has any. *)
Lemma first_issue_of (g : field -> list issue) (r : field -> bool)
    (l : list field) :
  (forall f, g f = [] <-> r f = true) ->
  match List.find (fun f => negb (r f)) l with
  | Some f => exists i rest, hd_error (g f) = Some i /\ List.flat_map g l = i :: rest
  | None => List.flat_map g l = []
  end.
Proof.
  intros Hg. induction l as [|f l IH]; cbn [List.find List.flat_map]; [reflexivity|].
  destruct (r f) eqn:Hf; cbn [negb].
  - apply Hg in Hf. rewrite Hf. exact IH.
  - destruct (g f) as [|i rest] eqn:Hi.
    + assert (r f = true) by (apply Hg; exact Hi). congruence.
    + exists i, (rest ++ List.flat_map g l)%list. split; reflexivity.
Qed.

Lemma first_issue (o : gmap string jsval) :
  match first_failing o with
  | Some f =>
      exists i rest, hd_error (field_issues f o) = Some i
                     /\ issues strategySchema [] (JObj o) = i :: rest
  | None => issues strategySchema [] (JObj o) = []
  end.
Proof.
  rewrite issues_by_field. unfold first_failing.
  apply (first_issue_of (fun f => field_issues f o) (fun f => rule f o)).
  intros f. apply field_issues_rule.
Qed.

Lemma valid_first_failing (o : gmap string jsval) :
  valid o = true <-> first_failing o = None.
Proof.
  unfold valid, first_failing.
  induction priority as [|f l IH]; cbn; [tauto|].
  destruct (rule f o); cbn; [exact IH | split; discriminate].
Qed.

Lemma invalid_first_failing (o : gmap string jsval) :
  valid o = false ->
  exists f, first_failing o = Some f /\ rule f o = false.
Proof.
  intros Hv. destruct (first_failing o) as [f|] eqn:Hf.
  - exists f. split; [reflexivity|].
    apply find_some in Hf as [_ Hf]. destruct (rule f o); [discriminate | reflexivity].
  - apply valid_first_failing in Hf. congruence.
Qed.

(** Zod accepts a payload exactly when all six rules hold. *)
Lemma accepted_iff_valid (o : gmap string jsval) :
  parse strategySchema (JObj o) = Parsed (JObj o) <-> valid o = true.
Proof.
  unfold parse. pose proof (first_issue o) as H.
  rewrite valid_first_failing.
  destruct (first_failing o) as [f|].
  - destruct H as (i & rest & _ & ->). split; discriminate.
  - rewrite H. tauto.
Qed.

Lemma strings_map (l : list string) : strings (List.map JStr l) = Some l.
Proof. induction l as [|s l IH]; cbn; [reflexivity | rewrite IH; reflexivity]. Qed.

Lemma strings_forallb (items : list jsval) :
  List.forallb is_string items = true ->
  exists l, items = List.map JStr l /\ strings items = Some l.
Proof.
  induction items as [|v rest IH]; cbn.
  - exists []. split; reflexivity.
  - destruct v; cbn; try discriminate. intros H.
    destruct (IH H) as (l & -> & Hl). exists (s :: l).
    split; [reflexivity | rewrite Hl; reflexivity].
Qed.

Lemma reads_typed (o : gmap string jsval) (p : StrategyInput) :
  reads o p -> typed (JObj o) = Some p.
Proof.
  intros (H1 & H2 & H3 & H4 & H5 & H6). unfold typed.
  rewrite H1, H2, H3, H4, H5, H6, strings_map. destruct p; reflexivity.
Qed.

Lemma reads_object_of (p : StrategyInput) : reads (object_of p) p.
Proof. repeat split. Qed.

Lemma valid_rules (o : gmap string jsval) :
  valid o = true -> forall f, rule f o = true.
Proof.
  unfold valid. rewrite forallb_forall. intros H f. apply H.
  destruct f; cbn; tauto.
Qed.

(** A valid payload holds a typed input. *)
Lemma valid_reads (o : gmap string jsval) :
  valid o = true -> exists p, reads o p.
Proof.
  intros Hv. pose proof (valid_rules o Hv) as R.
  pose proof (R f_profile) as R1. pose proof (R f_capital) as R2.
  pose proof (R f_riskPerTrade) as R3. pose proof (R f_indicators) as R4.
  pose proof (R f_session) as R5. pose proof (R f_automationLevel) as R6.
  unfold rule in R1, R2, R3, R4, R5, R6. cbn [field_name rule_on] in *.
  unfold reads.
  destruct (get o "profile") as [| | | |p| |]; try discriminate.
  destruct (get o "capital") as [| | |c| | |]; try discriminate.
  destruct (get o "riskPerTrade") as [| | |r| | |]; try discriminate.
  destruct (get o "indicators") as [| | | | |items|]; try discriminate.
  destruct (get o "session") as [| | | |s| |]; try discriminate.
  destruct (get o "automationLevel") as [| | | |a| |]; try discriminate.
  apply andb_prop in R4 as [_ R4].
  destruct (strings_forallb items R4) as (l & -> & _).
  exists {| profile := p; capital := c; riskPerTrade := r; indicators := l;
            session := s; automationLevel := a |}.
  repeat split.
Qed.

(** On a valid payload the handler builds the report of the input it
    holds. *)
Lemma generate_valid (o : gmap string jsval) (p : StrategyInput) :
  valid o = true -> reads o p ->
  generate (JObj o) = Report (buildStrategy p).
Proof.
  intros Hv Hp. unfold generate.
  apply accepted_iff_valid in Hv. rewrite Hv.
  rewrite (reads_typed o p Hp). reflexivity.
Qed.

(** On an invalid payload it reports the first issue of the first
    failing field. *)
Lemma generate_first_failing (o : gmap string jsval) (f : field) :
  first_failing o = Some f ->
  exists i, hd_error (field_issues f o) = Some i
            /\ generate (JObj o) = Failure (message i).
Proof.
  intros Hf. pose proof (first_issue o) as H. rewrite Hf in H.
  destruct H as (i & rest & Hi & Hall).
  exists i. split; [exact Hi|].
  unfold generate, parse. rewrite Hall. reflexivity.
Qed.

Lemma first_failing_rule_is_reported (o : gmap string jsval) :
  valid o = false -> exists i, generate (JObj o) = Failure (message i).
Proof.
  intros Hv. destruct (invalid_first_failing o Hv) as (f & Hf & _).
  destruct (generate_first_failing o f Hf) as (i & _ & Hg). eauto.
Qed.

(** Every object payload ends in a report or in the message of a zod
    issue: the other two messages of the handler are never shown. *)
Lemma generate_total (o : gmap string jsval) :
  (exists p, reads o p /\ generate (JObj o) = Report (buildStrategy p))
  \/ (exists i, generate (JObj o) = Failure (message i)).
Proof.
  destruct (valid o) eqn:Hv.
  - left. destruct (valid_reads o Hv) as (p & Hp). exists p.
    split; [exact Hp | apply generate_valid; assumption].
  - right. apply first_failing_rule_is_reported. exact Hv.
Qed.

Lemma get_insert (o : gmap string jsval) (k : string) (v : jsval) :
  get (<[k := v]> o) k = v.
Proof. unfold get. rewrite lookup_insert_eq. reflexivity. Qed.

Lemma get_insert_ne (o : gmap string jsval) (k k' : string) (v : jsval) :
  k <> k' -> get (<[k := v]> o) k' = get o k'.
Proof. intros H. unfold get. rewrite lookup_insert_ne by exact H. reflexivity. Qed.

Lemma rule_insert (f g : field) (v : jsval) (o : gmap string jsval) :
  rule g (<[field_name f := v]> o)
  = if String.eqb (field_name f) (field_name g) then rule_on g v else rule g o.
Proof.
  unfold rule. destruct (String.eqb_spec (field_name f) (field_name g)) as [E | E].
  - rewrite E. rewrite get_insert. reflexivity.
  - rewrite get_insert_ne by exact E. reflexivity.
Qed.

(** Replacing one field of a valid payload leaves only that field's rule
    to decide. *)
Lemma first_failing_insert (f : field) (v : jsval) (o : gmap string jsval) :
  valid o = true ->
  first_failing (<[field_name f := v]> o)
  = if rule_on f v then None else Some f.
Proof.
  intros Hv. pose proof (valid_rules o Hv) as R.
  unfold first_failing, priority. cbn [List.find].
  rewrite !rule_insert, !R.
  destruct f; cbn [field_name String.eqb Ascii.eqb Bool.eqb negb];
    destruct (rule_on _ v); reflexivity.
Qed.

Lemma valid_insert (f : field) (v : jsval) (o : gmap string jsval) :
  valid o = true ->
  valid (<[field_name f := v]> o) = rule_on f v.
Proof.
  intros Hv. pose proof (first_failing_insert f v o Hv) as H.
  destruct (rule_on f v).
  - apply valid_first_failing. exact H.
  - destruct (valid (<[field_name f := v]> o)) eqn:E; [|reflexivity].
    apply valid_first_failing in E. congruence.
Qed.

Lemma first_failing_earlier (o : gmap string jsval) (f g : field) :
  first_failing o = Some f -> (rank g < rank f)%nat -> rule g o = true.
Proof.
  unfold first_failing, priority. cbn [List.find]. intros Hf Hlt.
  destruct (rule f_profile o) eqn:E1; cbn [negb] in Hf;
    [|injection Hf as <-; destruct g; cbn in Hlt; lia].
  destruct (rule f_capital o) eqn:E2; cbn [negb] in Hf;
    [|injection Hf as <-; destruct g; cbn in Hlt; (lia || assumption)].
  destruct (rule f_riskPerTrade o) eqn:E3; cbn [negb] in Hf;
    [|injection Hf as <-; destruct g; cbn in Hlt; (lia || assumption)].
  destruct (rule f_indicators o) eqn:E4; cbn [negb] in Hf;
    [|injection Hf as <-; destruct g; cbn in Hlt; (lia || assumption)].
  destruct (rule f_session o) eqn:E5; cbn [negb] in Hf;
    [|injection Hf as <-; destruct g; cbn in Hlt; (lia || assumption)].
  destruct (rule f_automationLevel o) eqn:E6; cbn [negb] in Hf;
    [discriminate|injection Hf as <-; destruct g; cbn in Hlt; (lia || assumption)].
Qed.

(** ** Priority of the rules *)

Import Messages.

Lemma enum_first_message (values : list string) (p : list path_elem)
    (v : jsval) (i : issue) :
  hd_error (issues (z_enum values) p v) = Some i ->
  message i = "Required"
  \/ (exists t, message i
                = "Expected " +:+ joinValues values +:+ ", received " +:+ type_name t)
  \/ (exists s, message i
                = "Invalid enum value. Expected " +:+ joinValues values
                  +:+ ", received '" +:+ s +:+ "'").
Proof.
  destruct v as [| | |x|s| |]; cbn [issues hd_error getParsedType].
  - intros H. injection H as <-. left. reflexivity.
  - intros H. injection H as <-. right. left. exists t_null. reflexivity.
  - intros H. injection H as <-. right. left. exists t_boolean. reflexivity.
  - intros H. injection H as <-. right. left.
    destruct (Num.isNaN x); [exists t_nan | exists t_number]; reflexivity.
  - destruct (List.existsb (String.eqb s) values); [discriminate|].
    intros H. injection H as <-. right. right. exists s. reflexivity.
  - intros H. injection H as <-. right. left. exists t_array. reflexivity.
  - intros H. injection H as <-. right. left. exists t_object. reflexivity.
Qed.

Lemma string_items_first_message (p : list path_elem) (items : list jsval)
    (k : nat) (i : issue) :
  hd_error (items_issues (issues z_string) p k items) = Some i ->
  message i = "Required"
  \/ exists t, message i = "Expected string, received " +:+ type_name t.
Proof.
  revert k. induction items as [|v rest IH]; intros k; cbn [items_issues].
  - discriminate.
  - destruct v as [| | |x|s| |]; cbn [issues app hd_error getParsedType];
      try (intros H; injection H as <-).
    + left. reflexivity.
    + right. exists t_null. reflexivity.
    + right. exists t_boolean. reflexivity.
    + right. destruct (Num.isNaN x); [exists t_nan | exists t_number]; reflexivity.
    + apply IH.
    + right. exists t_array. reflexivity.
    + right. exists t_object. reflexivity.
Qed.

Lemma number_type_message (p : list path_elem) (checks : list number_check)
    (v : jsval) (i : issue) :
  match v with JNum x => Num.isNaN x = true | _ => True end ->
  hd_error (issues (z_number checks) p v) = Some i ->
  message i = "Required"
  \/ exists t, message i = "Expected number, received " +:+ type_name t.
Proof.
  destruct v as [| | |x|s| |]; cbn [issues hd_error getParsedType]; intros Hv H.
  - injection H as <-. left. reflexivity.
  - injection H as <-. right. exists t_null. reflexivity.
  - injection H as <-. right. exists t_boolean. reflexivity.
  - rewrite Hv in H. injection H as <-. right. exists t_nan. reflexivity.
  - injection H as <-. right. exists t_string. reflexivity.
  - injection H as <-. right. exists t_array. reflexivity.
  - injection H as <-. right. exists t_object. reflexivity.
Qed.

Ltac told_by_text := right; right; split; vm_compute; reflexivity.

(** The text of the first message of a field: one of the two shared ones,
    or one that tells the field. *)
Lemma first_message (f : field) (o : gmap string jsval) (i : issue) :
  hd_error (field_issues f o) = Some i ->
  message i = "Required"
  \/ ((f = f_capital \/ f = f_riskPerTrade)
      /\ exists t, message i = "Expected number, received " +:+ type_name t)
  \/ (shared_message (message i) = false
      /\ rule_of_message (message i) = Some f).
Proof.
  unfold field_issues. destruct f; cbn [field_name].
  - intros H. apply enum_first_message in H as [H | [(t & H) | (s & H)]];
      rewrite H; [left; reflexivity | told_by_text | told_by_text].
  - change (field_schema f_capital) with (z_number [check_min (lit "100")]).
    destruct (get o "capital") as [| | |x|s| |] eqn:E;
      try (intros H; apply number_type_message in H as [H | H];
           [left; exact H | right; left; split; [left; reflexivity | exact H]
           | exact I]).
    destruct (Num.isNaN x) eqn:Ex.
    + intros H. apply number_type_message in H as [H | H];
        [left; exact H | right; left; split; [left; reflexivity | exact H]
        | exact Ex].
    + cbn [issues List.flat_map check_issue app]. rewrite Ex.
      destruct (Num.lt x (lit "100")); [|discriminate].
      intros H. injection H as <-. told_by_text.
  - change (field_schema f_riskPerTrade)
      with (z_number [check_min (lit "0.1"); check_max (lit "5")]).
    destruct (get o "riskPerTrade") as [| | |x|s| |] eqn:E;
      try (intros H; apply number_type_message in H as [H | H];
           [left; exact H | right; left; split; [right; reflexivity | exact H]
           | exact I]).
    destruct (Num.isNaN x) eqn:Ex.
    + intros H. apply number_type_message in H as [H | H];
        [left; exact H | right; left; split; [right; reflexivity | exact H]
        | exact Ex].
    + cbn [issues List.flat_map check_issue app]. rewrite Ex.
      destruct (Num.lt x (lit "0.1")); [intros H; injection H as <-; told_by_text|].
      destruct (Num.gt x (lit "5")); [|discriminate].
      intros H. injection H as <-. told_by_text.
  - change (field_schema f_indicators) with (z_array z_string (Some 1%nat)).
    destruct (get o "indicators") as [| | |x|s|items|];
      try (cbn [issues hd_error getParsedType]; intros H; injection H as <-).
    + left. reflexivity.
    + told_by_text.
    + told_by_text.
    + destruct (Num.isNaN x); told_by_text.
    + told_by_text.
    + change (issues (z_array z_string (Some 1%nat)) [PKey "indicators"]
                (JArr items))
        with ((if (List.length items <? 1)%nat
               then [ indicators_issue ] else [])
              ++ items_issues (issues z_string) [PKey "indicators"] 0 items)%list.
      destruct (List.length items <? 1)%nat; cbn [app hd_error].
      * intros H. injection H as <-. told_by_text.
      * intros H. apply string_items_first_message in H as [H | (t & H)];
          rewrite H; [left; reflexivity | told_by_text].
    + told_by_text.
  - intros H. apply enum_first_message in H as [H | [(t & H) | (s & H)]];
      rewrite H; [left; reflexivity | told_by_text | told_by_text].
  - intros H. apply enum_first_message in H as [H | [(t & H) | (s & H)]];
      rewrite H; [left; reflexivity | told_by_text | told_by_text].
Qed.

(** C3, as stated, fails: the empty payload breaks the profile rule first,
    the default state without its capital breaks the capital rule first,
    and both are answered "Required"; a text in place of the capital and a
    text in place of the risk are both answered "Expected number, received
    string". The message does not tell which rule failed. *)
Lemma message_does_not_identify :
  first_failing empty_payload = Some f_profile
  /\ first_failing no_capital = Some f_capital
  /\ generate (JObj empty_payload) = Failure "Required"
  /\ generate (JObj no_capital) = Failure "Required"
  /\ first_failing text_capital = Some f_capital
  /\ first_failing text_risk = Some f_riskPerTrade
  /\ generate (JObj text_capital) = Failure "Expected number, received string"
  /\ generate (JObj text_risk) = Failure "Expected number, received string".
Proof. repeat split; vm_compute; reflexivity. Qed.

(** C3, amended. On every invalid payload the handler reports one message,
    that of the first issue of the first failing rule in the order profile,
    capital, riskPerTrade, indicators, session, automationLevel: every
    earlier rule holds, the issue points at the failing field, no issue of
    a later rule is shown, and the result state is left as it was (no report
    is built). The text of the message tells the rule, by the options, the
    bound or the array it names, unless it is one of two shared texts:
    "Required", the answer to any missing value, and "Expected number,
    received ...", the answer to a capital or a risk that is not a number. *)
Theorem first_failing_rule_reported (o : gmap string jsval) :
  valid o = false ->
  exists (f : field) (i : issue),
    first_failing o = Some f
    /\ rule f o = false
    /\ (forall g, (rank g < rank f)%nat -> rule g o = true)
    /\ hd_error (field_issues f o) = Some i
    /\ hd_error (path i) = Some (PKey (field_name f))
    /\ generate (JObj o) = Failure (message i)
    /\ (forall st, form st = Some o ->
          handleGenerate st
          = {| form := form st; error := Some (message i); result := result st |})
    /\ (shared_message (message i) = false ->
        rule_of_message (message i) = Some f)
    /\ (shared_message (message i) = true ->
        message i = "Required"
        \/ ((f = f_capital \/ f = f_riskPerTrade)
            /\ exists t, message i = "Expected number, received " +:+ type_name t)).
Proof.
  intros Hv. destruct (invalid_first_failing o Hv) as (f & Hf & Hr).
  destruct (generate_first_failing o f Hf) as (i & Hi & Hg).
  pose proof (first_message f o i Hi) as Hm.
  exists f, i.
  split; [exact Hf|]. split; [exact Hr|].
  split; [intros g; apply first_failing_earlier; exact Hf|].
  split; [exact Hi|].
  split.
  { apply (field_issue_path f o).
    destruct (field_issues f o) as [|j rest]; [discriminate|].
    injection Hi as ->. left. reflexivity. }
  split; [exact Hg|].
  split.
  { intros st Hst. unfold handleGenerate. rewrite Hst.
    change (default defaultState (Some o)) with o.
    rewrite Hg. reflexivity. }
  split.
  - intros Hs. destruct Hm as [H | [(_ & t & H) | (_ & H)]]; [| |exact H].
    + rewrite H in Hs. discriminate Hs.
    + rewrite H in Hs. vm_compute in Hs. discriminate Hs.
  - intros Hs. destruct Hm as [H | [(Hf' & t & H) | (H & _)]].
    + left. exact H.
    + right. split; [exact Hf' | exists t; exact H].
    + congruence.
Qed.

Lemma first_failing_rule_reported_witness :
  exists (f : field) (i : issue),
    first_failing Scenarios.two_failures = Some f
    /\ rule f Scenarios.two_failures = false
    /\ (forall g, (rank g < rank f)%nat -> rule g Scenarios.two_failures = true)
    /\ hd_error (field_issues f Scenarios.two_failures) = Some i
    /\ hd_error (path i) = Some (PKey (field_name f))
    /\ generate (JObj Scenarios.two_failures) = Failure (message i)
    /\ (forall st, form st = Some Scenarios.two_failures ->
          handleGenerate st
          = {| form := form st; error := Some (message i); result := result st |})
    /\ (shared_message (message i) = false ->
        rule_of_message (message i) = Some f)
    /\ (shared_message (message i) = true ->
        message i = "Required"
        \/ ((f = f_capital \/ f = f_riskPerTrade)
            /\ exists t, message i = "Expected number, received " +:+ type_name t)).
Proof. apply (first_failing_rule_reported Scenarios.two_failures). vm_compute. reflexivity. Defined.

Lemma field_issues_insert (f : field) (v : jsval) (o : gmap string jsval) :
  field_issues f (<[field_name f := v]> o)
  = issues (field_schema f) [PKey (field_name f)] v.
Proof. unfold field_issues. rewrite get_insert. reflexivity. Qed.

(** Replacing one field of a valid payload leaves zod with the issues of
    that field alone. *)
Lemma issues_insert (f : field) (v : jsval) (o : gmap string jsval) :
  valid o = true ->
  issues strategySchema [] (JObj (<[field_name f := v]> o))
  = issues (field_schema f) [PKey (field_name f)] v.
Proof.
  intros Hv. pose proof (valid_rules o Hv) as R.
  rewrite issues_by_field. unfold priority. cbn [List.flat_map].
  assert (forall g, field_name f <> field_name g ->
                    field_issues g (<[field_name f := v]> o) = []) as Hother.
  { intros g Hne. apply field_issues_rule. rewrite rule_insert.
    destruct (String.eqb_spec (field_name f) (field_name g)); [contradiction|].
    apply R. }
  pose proof (field_issues_insert f v o) as Hself.
  destruct f; rewrite Hself;
    try rewrite (Hother f_profile) by (cbn; discriminate);
    try rewrite (Hother f_capital) by (cbn; discriminate);
    try rewrite (Hother f_riskPerTrade) by (cbn; discriminate);
    try rewrite (Hother f_indicators) by (cbn; discriminate);
    try rewrite (Hother f_session) by (cbn; discriminate);
    try rewrite (Hother f_automationLevel) by (cbn; discriminate);
    cbn [app]; rewrite ?app_nil_r; reflexivity.
Qed.

(** ** The capital rule *)

(** C2, as stated, fails: with a capital of 50 under a profile outside the
    enumeration, the message shown is the profile's, not the capital's. *)
Lemma capital_message_masked :
  Scenarios.low_capital_bad_profile !! "capital" = Some (JNum (lit "50"))
  /\ Num.lt (lit "50") (lit "100") = true
  /\ generate (JObj Scenarios.low_capital_bad_profile)
     = Failure "Invalid enum value. Expected 'Scalping' | 'Day Trade' | 'Swing', received 'Position'"
  /\ message capital_issue = "Number must be greater than or equal to 100"
  /\ generate (JObj Scenarios.low_capital_bad_profile)
     <> Failure (message capital_issue).
Proof.
  assert (generate (JObj Scenarios.low_capital_bad_profile)
          = Failure "Invalid enum value. Expected 'Scalping' | 'Day Trade' | 'Swing', received 'Position'")
    as Hg by (vm_compute; reflexivity).
  assert (message capital_issue = "Number must be greater than or equal to 100")
    as Hm by (vm_compute; reflexivity).
  repeat split; try assumption; try (vm_compute; reflexivity).
  rewrite Hg, Hm. discriminate.
Qed.

(** C2, amended. For every payload whose capital is a number below 100,
    zod raises the capital issue whatever the other fields hold, and the
    handler fails; the message shown is the capital's when the profile
    rule holds, and the profile's own first issue otherwise. *)
Theorem capital_below_minimum (o : gmap string jsval) (x : Num.num) :
  o !! "capital" = Some (JNum x) ->
  Num.lt x (lit "100") = true ->
  In capital_issue (issues strategySchema [] (JObj o))
  /\ (exists msg, generate (JObj o) = Failure msg)
  /\ (rule f_profile o = true ->
      generate (JObj o) = Failure (message capital_issue))
  /\ (rule f_profile o = false ->
      exists i, hd_error (field_issues f_profile o) = Some i
                /\ generate (JObj o) = Failure (message i)).
Proof.
  intros Hc Hlt.
  assert (get o "capital" = JNum x) as Hget by (unfold get; rewrite Hc; reflexivity).
  assert (Num.isNaN x = false) as Hx by (destruct x; (reflexivity || discriminate Hlt)).
  assert (field_issues f_capital o = [capital_issue]) as Hissues.
  { unfold field_issues. cbn [field_name]. rewrite Hget.
    change (field_schema f_capital) with (z_number [check_min (lit "100")]).
    cbn [issues List.flat_map check_issue app]. rewrite Hx, Hlt. reflexivity. }
  assert (rule f_capital o = false) as Hrule.
  { destruct (rule f_capital o) eqn:E; [|reflexivity].
    apply field_issues_rule in E. congruence. }
  assert (rule f_profile o = true ->
          generate (JObj o) = Failure (message capital_issue)) as Hcap.
  { intros Hp.
    assert (first_failing o = Some f_capital) as Hf
        by (unfold first_failing, priority; cbn [List.find]; rewrite Hp, Hrule; reflexivity).
    destruct (generate_first_failing o _ Hf) as (i & Hi & Hg).
    rewrite Hissues in Hi. injection Hi as <-. exact Hg. }
  assert (rule f_profile o = false ->
          exists i, hd_error (field_issues f_profile o) = Some i
                    /\ generate (JObj o) = Failure (message i)) as Hprof.
  { intros Hp. apply generate_first_failing.
    unfold first_failing, priority. cbn [List.find]. rewrite Hp. reflexivity. }
  repeat split; try assumption.
  - rewrite issues_by_field. apply in_flat_map. exists f_capital. split.
    + cbn. tauto.
    + rewrite Hissues. left. reflexivity.
  - destruct (rule f_profile o) eqn:Hp.
    + eexists. apply Hcap. reflexivity.
    + destruct (Hprof eq_refl) as (i & _ & Hg). eexists. exact Hg.
Qed.

Lemma capital_below_minimum_witness :
  In capital_issue (issues strategySchema [] (JObj Scenarios.two_failures))
  /\ (exists msg, generate (JObj Scenarios.two_failures) = Failure msg)
  /\ (rule f_profile Scenarios.two_failures = true ->
      generate (JObj Scenarios.two_failures) = Failure (message capital_issue))
  /\ (rule f_profile Scenarios.two_failures = false ->
      exists i, hd_error (field_issues f_profile Scenarios.two_failures) = Some i
                /\ generate (JObj Scenarios.two_failures) = Failure (message i)).
Proof.
  apply (capital_below_minimum Scenarios.two_failures (lit "50")).
  - vm_compute. reflexivity.
  - vm_compute. reflexivity.
Defined.

(** ** The indicators rule *)

(** C8. A payload whose list of indicators is empty is rejected, whatever
    the other fields hold; when the three rules before it hold, the
    message is that of the array being too small. *)
Theorem empty_indicators_rejected (o : gmap string jsval) :
  o !! "indicators" = Some (JArr []) ->
  (exists msg, generate (JObj o) = Failure msg)
  /\ ~ accepted (JObj o)
  /\ (rule f_profile o = true -> rule f_capital o = true ->
      rule f_riskPerTrade o = true ->
      generate (JObj o) = Failure (message indicators_issue)).
Proof.
  intros Hi.
  assert (rule f_indicators o = false) as Hrule
      by (unfold rule, get; cbn [field_name]; rewrite Hi; reflexivity).
  assert (valid o = false) as Hv.
  { destruct (valid o) eqn:E; [|reflexivity].
    rewrite (valid_rules o E f_indicators) in Hrule. discriminate. }
  repeat split.
  - destruct (first_failing_rule_is_reported o Hv) as (i & Hg). eauto.
  - intros Ha. apply accepted_iff_valid in Ha. congruence.
  - intros H1 H2 H3.
    assert (first_failing o = Some f_indicators) as Hf
        by (unfold first_failing, priority; cbn [List.find];
            rewrite H1, H2, H3, Hrule; reflexivity).
    destruct (generate_first_failing o _ Hf) as (i & Hhd & Hg).
    unfold field_issues, get in Hhd. cbn [field_name] in Hhd. rewrite Hi in Hhd.
    injection Hhd as <-. exact Hg.
Qed.

Lemma empty_indicators_rejected_witness :
  (exists msg, generate (JObj Scenarios.no_indicators) = Failure msg)
  /\ ~ accepted (JObj Scenarios.no_indicators)
  /\ (rule f_profile Scenarios.no_indicators = true ->
      rule f_capital Scenarios.no_indicators = true ->
      rule f_riskPerTrade Scenarios.no_indicators = true ->
      generate (JObj Scenarios.no_indicators) = Failure (message indicators_issue)).
Proof.
  apply (empty_indicators_rejected Scenarios.no_indicators).
  vm_compute. reflexivity.
Defined.

(** C1, as stated, fails: the default state with the single indicator
    "EMA", a string that is not one of the five of [indicatorOptions], is
    accepted and a report is built from it. *)
Lemma off_catalog_indicator_accepted :
  get Scenarios.off_catalog "indicators" = JArr [JStr "EMA"]
  /\ ~ In "EMA" indicatorOptions
  /\ List.length indicatorOptions = 5%nat
  /\ accepted (JObj Scenarios.off_catalog)
  /\ exists text, generate (JObj Scenarios.off_catalog) = Report text.
Proof.
  repeat split; try (vm_compute; reflexivity).
  - cbn. intros [H | [H | [H | [H | [H | []]]]]]; discriminate H.
  - eexists. vm_compute. reflexivity.
Qed.

(** C1, amended. For every accepted payload the indicators are a non-empty
    array of strings, and that is all the validator asks of them: putting
    any non-empty list of strings, from the catalog or not, in place of
    the indicators of an accepted payload gives an accepted payload. *)
Theorem accepted_indicators (o : gmap string jsval) :
  accepted (JObj o) ->
  (exists l, get o "indicators" = JArr (List.map JStr l) /\ l <> [])
  /\ (forall l, l <> [] ->
        accepted (JObj (<["indicators" := JArr (List.map JStr l)]> o))).
Proof.
  intros Ha. apply accepted_iff_valid in Ha. split.
  - destruct (valid_reads o Ha) as (p & _ & _ & _ & Hi & _).
    exists (indicators p). split; [exact Hi|].
    pose proof (valid_rules o Ha f_indicators) as R.
    unfold rule in R. cbn [field_name rule_on] in R. rewrite Hi in R.
    intros E. rewrite E in R. discriminate R.
  - intros l Hl. apply accepted_iff_valid.
    rewrite (valid_insert f_indicators _ o Ha). cbn [rule_on].
    destruct l as [|s l]; [contradiction|]. cbn.
    clear. induction l as [|s' l IH]; [reflexivity | exact IH].
Qed.

Lemma accepted_indicators_witness :
  (exists l, get defaultState "indicators" = JArr (List.map JStr l) /\ l <> [])
  /\ (forall l, l <> [] ->
        accepted (JObj (<["indicators" := JArr (List.map JStr l)]> defaultState))).
Proof. apply (accepted_indicators defaultState). vm_compute. reflexivity. Defined.

(** ** The bounds of the risk per trade *)

(** C6. Both bounds of the risk per trade are inclusive: in a payload
    that is valid otherwise, 5.0 and 0.1 are accepted, 5.1 is rejected as
    too big and 0.09 as too small. *)
Theorem risk_bounds_inclusive (o : gmap string jsval) :
  valid o = true ->
  accepted (JObj (<["riskPerTrade" := JNum (lit "5.0")]> o))
  /\ accepted (JObj (<["riskPerTrade" := JNum (lit "0.1")]> o))
  /\ parse strategySchema (JObj (<["riskPerTrade" := JNum (lit "5.1")]> o))
     = ZodError [risk_high_issue]
  /\ parse strategySchema (JObj (<["riskPerTrade" := JNum (lit "0.09")]> o))
     = ZodError [risk_low_issue]
  /\ generate (JObj (<["riskPerTrade" := JNum (lit "5.1")]> o))
     = Failure (message risk_high_issue)
  /\ generate (JObj (<["riskPerTrade" := JNum (lit "0.09")]> o))
     = Failure (message risk_low_issue).
Proof.
  intros Hv.
  pose proof (fun v => valid_insert f_riskPerTrade v o Hv) as Hvalid.
  pose proof (fun v => issues_insert f_riskPerTrade v o Hv) as Hissues.
  cbn [field_name] in Hvalid, Hissues.
  assert (issues strategySchema [] (JObj (<["riskPerTrade" := JNum (lit "5.1")]> o))
          = [risk_high_issue]) as Hhigh
      by (rewrite Hissues; vm_compute; reflexivity).
  assert (issues strategySchema [] (JObj (<["riskPerTrade" := JNum (lit "0.09")]> o))
          = [risk_low_issue]) as Hlow
      by (rewrite Hissues; vm_compute; reflexivity).
  repeat split.
  - apply accepted_iff_valid. rewrite Hvalid. vm_compute. reflexivity.
  - apply accepted_iff_valid. rewrite Hvalid. vm_compute. reflexivity.
  - unfold parse. rewrite Hhigh. reflexivity.
  - unfold parse. rewrite Hlow. reflexivity.
  - unfold generate, parse. rewrite Hhigh. reflexivity.
  - unfold generate, parse. rewrite Hlow. reflexivity.
Qed.

Lemma risk_bounds_inclusive_witness :
  accepted (JObj (<["riskPerTrade" := JNum (lit "5.0")]> defaultState))
  /\ accepted (JObj (<["riskPerTrade" := JNum (lit "0.1")]> defaultState))
  /\ parse strategySchema (JObj (<["riskPerTrade" := JNum (lit "5.1")]> defaultState))
     = ZodError [risk_high_issue]
  /\ parse strategySchema (JObj (<["riskPerTrade" := JNum (lit "0.09")]> defaultState))
     = ZodError [risk_low_issue]
  /\ generate (JObj (<["riskPerTrade" := JNum (lit "5.1")]> defaultState))
     = Failure (message risk_high_issue)
  /\ generate (JObj (<["riskPerTrade" := JNum (lit "0.09")]> defaultState))
     = Failure (message risk_low_issue).
Proof. apply (risk_bounds_inclusive defaultState). vm_compute. reflexivity. Defined.

End Validator.

(* ===================================================================== *)
(** * Properties of the report *)
(* ===================================================================== *)

Section Report.
Import Zod Page Rules Layout Text.

Lemma append_assoc (a b c : string) : (a +:+ b) +:+ c = a +:+ (b +:+ c).
Proof.
  induction a as [|x a IH]; [reflexivity|].
  change (String x (a +:+ b) +:+ c = String x (a +:+ (b +:+ c))).
  change (String x ((a +:+ b) +:+ c) = String x (a +:+ (b +:+ c))).
  rewrite IH. reflexivity.
Qed.

Lemma lines_nonempty (s : string) : exists l ls, lines s = l :: ls.
Proof.
  destruct s as [|c r]; cbn [lines]; [eauto|].
  destruct (Ascii.eqb c _); [eauto|].
  destruct (lines r); eauto.
Qed.

Lemma lines_append_nl (a b : string) :
  lines (a +:+ nl +:+ b) = (lines a ++ lines b)%list.
Proof.
  induction a as [|c a IH].
  - reflexivity.
  - change (String c a +:+ nl +:+ b) with (String c (a +:+ nl +:+ b)).
    cbn [lines]. rewrite IH.
    destruct (Ascii.eqb c _); [reflexivity|].
    destruct (lines_nonempty a) as (l & ls & ->). reflexivity.
Qed.

Lemma lines_single (s : string) : single_line s = true -> lines s = [s].
Proof.
  induction s as [|c r IH]; cbn [single_line lines]; [reflexivity|].
  destruct (Ascii.eqb c _); cbn [negb andb]; [discriminate|].
  intros H. rewrite (IH H). reflexivity.
Qed.

Lemma single_line_append (a b : string) :
  single_line (a +:+ b) = single_line a && single_line b.
Proof.
  induction a as [|c a IH]; [reflexivity|].
  change (String c a +:+ b) with (String c (a +:+ b)).
  cbn [single_line]. rewrite IH. destruct (Ascii.eqb c _); reflexivity.
Qed.

(** The report is its seven lines, in this order, joined by line feeds. *)
Lemma buildStrategy_report_lines (p : StrategyInput) :
  buildStrategy p = String.concat nl (report_lines p).
Proof.
  unfold buildStrategy, report_lines, title_line, indicators_line,
    session_line, risk_line, targets_line, lot_line, observation_line.
  cbn [String.concat]. rewrite !append_assoc. reflexivity.
Qed.

Lemma buildStrategy_head (p : StrategyInput) :
  buildStrategy p = report_head p +:+ nl +:+ observation_line p.
Proof.
  rewrite buildStrategy_report_lines. unfold report_lines, report_head.
  cbn [String.concat]. rewrite !append_assoc. reflexivity.
Qed.

Lemma lines_concat_length (l : list string) :
  l <> [] -> (List.length l <= List.length (lines (String.concat nl l)))%nat.
Proof.
  induction l as [|a l IH]; [contradiction|]. intros _.
  destruct l as [|b l].
  - cbn [String.concat]. destruct (lines_nonempty a) as (x & xs & ->). cbn. lia.
  - change (String.concat nl (a :: b :: l))
      with (a +:+ nl +:+ String.concat nl (b :: l)).
    rewrite lines_append_nl, List.length_app.
    destruct (lines_nonempty a) as (x & xs & ->).
    assert (b :: l <> []) as H by discriminate. specialize (IH H).
    cbn [List.length] in *. lia.
Qed.

Lemma lines_buildStrategy (p : StrategyInput) :
  single_line (observation_line p) = true ->
  lines (buildStrategy p) = (lines (report_head p) ++ [observation_line p])%list.
Proof.
  intros H. rewrite buildStrategy_head, lines_append_nl, (lines_single _ H).
  reflexivity.
Qed.

Lemma one_of_cases (a b c : string) (v : jsval) :
  one_of [a; b; c] v = true -> v = JStr a \/ v = JStr b \/ v = JStr c.
Proof.
  destruct v as [| | | |s| |]; cbn; try discriminate.
  destruct (String.eqb_spec s a) as [-> | _]; [tauto|].
  destruct (String.eqb_spec s b) as [-> | _]; [tauto|].
  destruct (String.eqb_spec s c) as [-> | _]; [tauto|]. discriminate.
Qed.

(** What validity says of the typed input a payload holds. *)
Lemma valid_typed_fields (o : gmap string jsval) (p : StrategyInput) :
  valid o = true -> reads o p ->
  In (profile p) profiles
  /\ Num.ge (capital p) (lit "100") = true
  /\ Num.ge (riskPerTrade p) (lit "0.1") = true
  /\ Num.le (riskPerTrade p) (lit "5") = true
  /\ indicators p <> []
  /\ In (session p) sessions
  /\ In (automationLevel p) automationLevels.
Proof.
  intros Hv (H1 & H2 & H3 & H4 & H5 & H6).
  pose proof (valid_rules o Hv) as R.
  pose proof (R f_profile) as R1. pose proof (R f_capital) as R2.
  pose proof (R f_riskPerTrade) as R3. pose proof (R f_indicators) as R4.
  pose proof (R f_session) as R5. pose proof (R f_automationLevel) as R6.
  unfold rule in R1, R2, R3, R4, R5, R6. cbn [field_name rule_on] in *.
  rewrite H1 in R1. rewrite H2 in R2. rewrite H3 in R3. rewrite H4 in R4.
  rewrite H5 in R5. rewrite H6 in R6.
  apply andb_prop in R3 as [R3 R3'].
  apply one_of_cases in R1, R5, R6.
  repeat split; try assumption.
  - destruct R1 as [E | [E | E]]; injection E as ->; cbn; tauto.
  - intros E. rewrite E in R4. discriminate R4.
  - destruct R5 as [E | [E | E]]; injection E as ->; cbn; tauto.
  - destruct R6 as [E | [E | E]]; injection E as ->; cbn; tauto.
Qed.

Lemma finite_literal (c : string) (m : positive) (e : Z) :
  lit c = S754_finite false m e ->
  forall x, Num.ge x (lit c) = true -> Num.negative x = false.
Proof. intros -> x. apply ge_positive_nonnegative. Qed.

Lemma capital_nonnegative (x : Num.num) :
  Num.ge x (lit "100") = true -> Num.negative x = false.
Proof. eapply finite_literal. vm_compute. reflexivity. Qed.

Lemma risk_nonnegative (x : Num.num) :
  Num.ge x (lit "0.1") = true -> Num.negative x = false.
Proof. eapply finite_literal. vm_compute. reflexivity. Qed.

Lemma risk_below_1e21 (x : Num.num) :
  Num.le x (lit "5") = true -> Num.lt x (lit "1e21") = true.
Proof.
  remember (lit "5") as five eqn:H5. vm_compute in H5.
  remember (lit "1e21") as big eqn:Hbig. vm_compute in Hbig.
  subst five big. intros H. eapply le_lt_finite; [exact H|].
  vm_compute. reflexivity.
Qed.

Lemma riskCapital_nonnegative (o : gmap string jsval) (p : StrategyInput) :
  valid o = true -> reads o p -> Num.negative (riskCapital p) = false.
Proof.
  intros Hv Hp.
  destruct (valid_typed_fields o p Hv Hp) as (_ & Hc & Hr & _).
  unfold riskCapital. apply div_nonnegative; [|reflexivity].
  apply mul_nonnegative;
    [apply capital_nonnegative | apply risk_nonnegative]; assumption.
Qed.

Lemma entry_session (s : string) :
  In s sessions -> exists c, sessionCharacteristics !! s = Some c.
Proof. cbn. intros [<- | [<- | [<- | []]]]; eexists; reflexivity. Qed.

Lemma entry_profile (s : string) :
  In s profiles -> exists c, riskNotes !! s = Some c.
Proof. cbn. intros [<- | [<- | [<- | []]]]; eexists; reflexivity. Qed.

Lemma entry_automationLevel (s : string) :
  In s automationLevels -> exists c, automationTips !! s = Some c.
Proof. cbn. intros [<- | [<- | [<- | []]]]; eexists; reflexivity. Qed.

(** ** Layout of the report *)

(** C7, as stated, fails: with a capital of 10^24 at 1% the payload is
    valid and the amount on the risk line is written "1e+22", without
    decimals. *)
Lemma huge_capital_amount :
  valid Scenarios.huge_capital = true
  /\ exists p,
       reads Scenarios.huge_capital p
       /\ generate (JObj Scenarios.huge_capital) = Report (buildStrategy p)
       /\ risk_line p = "- Risco por trade: 1.00% (1e+22 USD)"
       /\ Num.toFixed 2 (riskCapital p) = "1e+22"
       /\ Num.two_decimals (Num.toFixed 2 (riskCapital p)) = false.
Proof.
  split; [vm_compute; reflexivity|].
  exists {| profile := "Day Trade"; capital := lit "1e24"; riskPerTrade := lit "1";
            indicators := [ "Média Móvel Exponencial (EMA)";
                            "Índice de Força Relativa (RSI)" ];
            session := "Londres"; automationLevel := "Semi-Autônomo" |}.
  repeat split; vm_compute; reflexivity.
Qed.

(** C7, amended. For every valid payload the handler succeeds, and the
    report is a text of several lines made of seven pieces separated by line
    feeds, in this fixed order: the title with the profile and the session
    as given; the indicators joined by commas; the characteristics of the
    session; the risk, with the percentage to two decimals and the amount
    as [toFixed(2)] writes it, which is to two decimals below 10^21 and the
    plain Number-to-string form from there on; stop loss and take profit;
    the lot size; the profile's note followed by the automation level's
    tip. *)
Theorem report_layout (o : gmap string jsval) :
  valid o = true ->
  exists p,
    reads o p
    /\ generate (JObj o) = Report (buildStrategy p)
    /\ buildStrategy p = String.concat nl (report_lines p)
    /\ (7 <= List.length (lines (buildStrategy p)))%nat
    /\ report_lines p
       = [ title_line p; indicators_line p; session_line p; risk_line p;
           targets_line p; lot_line p; observation_line p ]
    /\ title_line p = "Estratégia " +:+ profile p +:+ " " +:+ session p
    /\ indicators_line p
       = "- Indicadores principais: " +:+ String.concat ", " (indicators p)
    /\ (exists c, sessionCharacteristics !! session p = Some c
                  /\ session_line p = "- Sessão: " +:+ c)
    /\ risk_line p
       = "- Risco por trade: " +:+ Num.toFixed 2 (riskPerTrade p) +:+ "% ("
         +:+ Num.toFixed 2 (riskCapital p) +:+ " USD)"
    /\ Num.two_decimals (Num.toFixed 2 (riskPerTrade p)) = true
    /\ (Num.lt (riskCapital p) (lit "1e21") = true ->
        Num.two_decimals (Num.toFixed 2 (riskCapital p)) = true)
    /\ (Num.lt (riskCapital p) (lit "1e21") = false ->
        Num.toFixed 2 (riskCapital p) = Num.toString (riskCapital p))
    /\ targets_line p
       = "- Stop loss médio: " +:+ Num.toString (stopLossPips p)
         +:+ " pips | Take profit: "
         +:+ Num.toFixed 0 (Num.mul (stopLossPips p) (takeProfitMultiplier p))
         +:+ " pips"
    /\ lot_line p
       = "- Lote sugerido: " +:+ Num.toString (lotSize p) +:+ " mini lotes"
    /\ (exists note tip,
          riskNotes !! profile p = Some note
          /\ automationTips !! automationLevel p = Some tip
          /\ observation_line p = "- Observação: " +:+ note +:+ " " +:+ tip).
Proof.
  intros Hv. destruct (valid_reads o Hv) as (p & Hp). exists p.
  destruct (valid_typed_fields o p Hv Hp) as (Hprof & Hc & Hr & Hr' & Hi & Hs & Ha).
  pose proof (riskCapital_nonnegative o p Hv Hp) as Hneg.
  split; [exact Hp|].
  split; [apply generate_valid; assumption|].
  split; [apply buildStrategy_report_lines|].
  split.
  { rewrite buildStrategy_report_lines.
    apply (lines_concat_length (report_lines p)). discriminate. }
  split; [reflexivity|]. split; [reflexivity|]. split; [reflexivity|].
  split.
  { destruct (entry_session _ Hs) as (c & Hc'). exists c. split; [exact Hc'|].
    unfold session_line, entry. rewrite Hc'. reflexivity. }
  split; [reflexivity|].
  split.
  { apply toFixed_two_decimals;
      [apply risk_nonnegative | apply risk_below_1e21]; assumption. }
  split; [apply toFixed_two_decimals; exact Hneg|].
  split; [apply toFixed_large; exact Hneg|].
  split; [reflexivity|]. split; [reflexivity|].
  destruct (entry_profile _ Hprof) as (note & Hnote).
  destruct (entry_automationLevel _ Ha) as (tip & Htip).
  exists note, tip. repeat split; try assumption.
  unfold observation_line, entry. rewrite Hnote, Htip. reflexivity.
Qed.

Lemma report_layout_witness :
  exists p,
    reads defaultState p
    /\ generate (JObj defaultState) = Report (buildStrategy p)
    /\ buildStrategy p = String.concat nl (report_lines p)
    /\ (7 <= List.length (lines (buildStrategy p)))%nat
    /\ report_lines p
       = [ title_line p; indicators_line p; session_line p; risk_line p;
           targets_line p; lot_line p; observation_line p ]
    /\ title_line p = "Estratégia " +:+ profile p +:+ " " +:+ session p
    /\ indicators_line p
       = "- Indicadores principais: " +:+ String.concat ", " (indicators p)
    /\ (exists c, sessionCharacteristics !! session p = Some c
                  /\ session_line p = "- Sessão: " +:+ c)
    /\ risk_line p
       = "- Risco por trade: " +:+ Num.toFixed 2 (riskPerTrade p) +:+ "% ("
         +:+ Num.toFixed 2 (riskCapital p) +:+ " USD)"
    /\ Num.two_decimals (Num.toFixed 2 (riskPerTrade p)) = true
    /\ (Num.lt (riskCapital p) (lit "1e21") = true ->
        Num.two_decimals (Num.toFixed 2 (riskCapital p)) = true)
    /\ (Num.lt (riskCapital p) (lit "1e21") = false ->
        Num.toFixed 2 (riskCapital p) = Num.toString (riskCapital p))
    /\ targets_line p
       = "- Stop loss médio: " +:+ Num.toString (stopLossPips p)
         +:+ " pips | Take profit: "
         +:+ Num.toFixed 0 (Num.mul (stopLossPips p) (takeProfitMultiplier p))
         +:+ " pips"
    /\ lot_line p
       = "- Lote sugerido: " +:+ Num.toString (lotSize p) +:+ " mini lotes"
    /\ (exists note tip,
          riskNotes !! profile p = Some note
          /\ automationTips !! automationLevel p = Some tip
          /\ observation_line p = "- Observação: " +:+ note +:+ " " +:+ tip).
Proof. apply (report_layout defaultState). vm_compute. reflexivity. Defined.

(** ** The numeric scenarios *)

(** C4. On the payload with profile Day Trade, capital 1000, risk 1,
    the single indicator "EMA", session London and the semi-autonomous
    level, the handler succeeds and returns the seven lines below: the risk
    capital is 10 and stands as "10.00", the stop loss is 20 pips, the take
    profit 40 pips, and the lot size is 0.33. *)
Theorem day_trade_scenario_report :
  generate (JObj (object_of Scenarios.day_trade_scenario))
  = Report
      (String.concat nl
         [ "Estratégia Day Trade Londres";
           "- Indicadores principais: EMA";
           "- Sessão: Alta liquidez em pares EUR/GBP, volatilidade consistente.";
           "- Risco por trade: 1.00% (10.00 USD)";
           "- Stop loss médio: 20 pips | Take profit: 40 pips";
           "- Lote sugerido: 0.33 mini lotes";
           "- Observação: Combine confirmação de tendência com filtro de volatilidade. Automatize entradas/saídas e mantenha supervisão humana para ajustes." ])
  /\ buildStrategy Scenarios.day_trade_scenario
     = String.concat nl
         [ "Estratégia Day Trade Londres";
           "- Indicadores principais: EMA";
           "- Sessão: Alta liquidez em pares EUR/GBP, volatilidade consistente.";
           "- Risco por trade: 1.00% (10.00 USD)";
           "- Stop loss médio: 20 pips | Take profit: 40 pips";
           "- Lote sugerido: 0.33 mini lotes";
           "- Observação: Combine confirmação de tendência com filtro de volatilidade. Automatize entradas/saídas e mantenha supervisão humana para ajustes." ]
  /\ generate (JObj (object_of Scenarios.day_trade_scenario))
     = Report (buildStrategy Scenarios.day_trade_scenario)
  /\ report_lines Scenarios.day_trade_scenario
     = [ "Estratégia Day Trade Londres";
         "- Indicadores principais: EMA";
         "- Sessão: Alta liquidez em pares EUR/GBP, volatilidade consistente.";
         "- Risco por trade: 1.00% (10.00 USD)";
         "- Stop loss médio: 20 pips | Take profit: 40 pips";
         "- Lote sugerido: 0.33 mini lotes";
         "- Observação: Combine confirmação de tendência com filtro de volatilidade. Automatize entradas/saídas e mantenha supervisão humana para ajustes." ]
  /\ riskCapital Scenarios.day_trade_scenario = lit "10"
  /\ Num.toFixed 2 (riskCapital Scenarios.day_trade_scenario) = "10.00"
  /\ stopLossPips Scenarios.day_trade_scenario = lit "20"
  /\ Num.mul (stopLossPips Scenarios.day_trade_scenario)
             (takeProfitMultiplier Scenarios.day_trade_scenario) = lit "40"
  /\ Num.toFixed 0 (Num.mul (stopLossPips Scenarios.day_trade_scenario)
                            (takeProfitMultiplier Scenarios.day_trade_scenario))
     = "40"
  /\ lotSize Scenarios.day_trade_scenario = lit "0.33"
  /\ Num.toString (lotSize Scenarios.day_trade_scenario) = "0.33".
Proof. repeat split; vm_compute; reflexivity. Qed.

Lemma scalping_lines (p : StrategyInput) :
  profile p = Scenarios.Scalping ->
  capital p = lit "2000" ->
  riskPerTrade p = lit "2" ->
  title_line p = "Estratégia Scalping " +:+ session p
  /\ risk_line p = "- Risco por trade: 2.00% (40.00 USD)"
  /\ targets_line p = "- Stop loss médio: 8 pips | Take profit: 10 pips"
  /\ lot_line p = "- Lote sugerido: 3.33 mini lotes"
  /\ observation_line p
     = "- Observação: Aproveite spreads baixos e priorize execução em contas ECN. "
       +:+ entry automationTips (automationLevel p).
Proof.
  intros Hprof Hcap Hrisk.
  unfold title_line, risk_line, targets_line, lot_line, observation_line,
    lotSize, riskCapital, stopLossPips, takeProfitMultiplier.
  rewrite Hprof, Hcap, Hrisk.
  split; [reflexivity|].
  split; [vm_compute; reflexivity|].
  split; [vm_compute; reflexivity|].
  split; [vm_compute; reflexivity|].
  reflexivity.
Qed.

(** C5. On every valid payload with profile Scalping, capital 2000 and
    risk 2, the handler succeeds and returns the seven lines below: the risk
    capital is 40 and stands as "40.00"; the stop loss is 8 pips; the take
    profit is 8 x 1.2, the Number 9.6, written "10" by [toFixed(0)], the
    nearest integer; the lot size is 3.33. *)
Theorem scalping_scenario_report (o : gmap string jsval) (p : StrategyInput) :
  valid o = true -> reads o p ->
  profile p = Scenarios.Scalping ->
  capital p = lit "2000" ->
  riskPerTrade p = lit "2" ->
  generate (JObj o)
  = Report
      (String.concat nl
         [ "Estratégia Scalping " +:+ session p;
           "- Indicadores principais: " +:+ String.concat ", " (indicators p);
           "- Sessão: " +:+ entry sessionCharacteristics (session p);
           "- Risco por trade: 2.00% (40.00 USD)";
           "- Stop loss médio: 8 pips | Take profit: 10 pips";
           "- Lote sugerido: 3.33 mini lotes";
           "- Observação: Aproveite spreads baixos e priorize execução em contas ECN. "
           +:+ entry automationTips (automationLevel p) ])
  /\ generate (JObj o) = Report (buildStrategy p)
  /\ riskCapital p = lit "40"
  /\ Num.toFixed 2 (riskCapital p) = "40.00"
  /\ stopLossPips p = lit "8"
  /\ Num.mul (stopLossPips p) (takeProfitMultiplier p) = lit "9.6"
  /\ Qfloor (Num.to_Q (lit "9.6") + (1 # 2)) = 10%Z
  /\ Num.toFixed 0 (Num.mul (stopLossPips p) (takeProfitMultiplier p)) = "10"
  /\ lotSize p = lit "3.33"
  /\ risk_line p = "- Risco por trade: 2.00% (40.00 USD)"
  /\ targets_line p = "- Stop loss médio: 8 pips | Take profit: 10 pips"
  /\ lot_line p = "- Lote sugerido: 3.33 mini lotes".
Proof.
  intros Hv Hp Hprof Hcap Hrisk.
  pose proof (generate_valid o p Hv Hp) as Hg.
  destruct (scalping_lines p Hprof Hcap Hrisk) as (L1 & L4 & L5 & L6 & L7).
  split.
  { rewrite Hg, buildStrategy_report_lines. unfold report_lines.
    rewrite L1, L4, L5, L6, L7. reflexivity. }
  split; [exact Hg|].
  unfold risk_line, targets_line, lot_line, lotSize, riskCapital,
    stopLossPips, takeProfitMultiplier.
  rewrite Hprof, Hcap, Hrisk.
  repeat split; vm_compute; reflexivity.
Qed.

Lemma scalping_scenario_report_witness :
  let p := Scenarios.scalping_scenario ["MACD"] Scenarios.Tokyo Scenarios.Full in
  generate (JObj (object_of p))
  = Report
      (String.concat nl
         [ "Estratégia Scalping " +:+ session p;
           "- Indicadores principais: " +:+ String.concat ", " (indicators p);
           "- Sessão: " +:+ entry sessionCharacteristics (session p);
           "- Risco por trade: 2.00% (40.00 USD)";
           "- Stop loss médio: 8 pips | Take profit: 10 pips";
           "- Lote sugerido: 3.33 mini lotes";
           "- Observação: Aproveite spreads baixos e priorize execução em contas ECN. "
           +:+ entry automationTips (automationLevel p) ])
  /\ generate (JObj (object_of p)) = Report (buildStrategy p)
  /\ riskCapital p = lit "40"
  /\ Num.toFixed 2 (riskCapital p) = "40.00"
  /\ stopLossPips p = lit "8"
  /\ Num.mul (stopLossPips p) (takeProfitMultiplier p) = lit "9.6"
  /\ Qfloor (Num.to_Q (lit "9.6") + (1 # 2)) = 10%Z
  /\ Num.toFixed 0 (Num.mul (stopLossPips p) (takeProfitMultiplier p)) = "10"
  /\ lotSize p = lit "3.33"
  /\ risk_line p = "- Risco por trade: 2.00% (40.00 USD)"
  /\ targets_line p = "- Stop loss médio: 8 pips | Take profit: 10 pips"
  /\ lot_line p = "- Lote sugerido: 3.33 mini lotes".
Proof.
  intros p. apply (scalping_scenario_report (object_of p) p).
  - vm_compute. reflexivity.
  - apply reads_object_of.
  - reflexivity.
  - reflexivity.
  - reflexivity.
Defined.

(** ** The divisor of the lot size *)

(** C9. For every valid payload the stop loss is the constant of its
    profile, 8, 20 or 45, so the divisor of the lot size, the stop loss
    times 1.5, is 12, 30 or 67.5: a finite Number above zero. The
    division is never one by zero. *)
Theorem lot_divisor_positive (o : gmap string jsval) :
  valid o = true ->
  exists p,
    reads o p
    /\ ((profile p = "Scalping" /\ stopLossPips p = lit "8"
         /\ Num.mul (stopLossPips p) (lit "1.5") = lit "12")
        \/ (profile p = "Day Trade" /\ stopLossPips p = lit "20"
            /\ Num.mul (stopLossPips p) (lit "1.5") = lit "30")
        \/ (profile p = "Swing" /\ stopLossPips p = lit "45"
            /\ Num.mul (stopLossPips p) (lit "1.5") = lit "67.5"))
    /\ Num.isFinite (Num.mul (stopLossPips p) (lit "1.5")) = true
    /\ (0 < Num.to_Q (Num.mul (stopLossPips p) (lit "1.5")))%Q
    /\ (forall s, Num.mul (stopLossPips p) (lit "1.5") <> S754_zero s)
    /\ lotSize p
       = Num.Number
           (Num.toFixed 2
              (Num.div (riskCapital p) (Num.mul (stopLossPips p) (lit "1.5")))).
Proof.
  intros Hv. destruct (valid_reads o Hv) as (p & Hp). exists p.
  destruct (valid_typed_fields o p Hv Hp) as (Hprof & _).
  split; [exact Hp|].
  assert (lotSize p
          = Num.Number
              (Num.toFixed 2
                 (Num.div (riskCapital p) (Num.mul (stopLossPips p) (lit "1.5")))))
    as Hlot by reflexivity.
  revert Hlot. generalize (lotSize p) (riskCapital p). intros lot rc Hlot.
  unfold stopLossPips in *.
  destruct Hprof as [E | [E | [E | []]]]; rewrite <- E in *;
    cbn [String.eqb Ascii.eqb Bool.eqb] in *.
  - split; [left; repeat split; vm_compute; reflexivity|].
    split; [vm_compute; reflexivity|]. split; [vm_compute; reflexivity|].
    split; [intros s; vm_compute; discriminate | exact Hlot].
  - split; [right; left; repeat split; vm_compute; reflexivity|].
    split; [vm_compute; reflexivity|]. split; [vm_compute; reflexivity|].
    split; [intros s; vm_compute; discriminate | exact Hlot].
  - split; [right; right; repeat split; vm_compute; reflexivity|].
    split; [vm_compute; reflexivity|]. split; [vm_compute; reflexivity|].
    split; [intros s; vm_compute; discriminate | exact Hlot].
Qed.

Lemma lot_divisor_positive_witness :
  exists p,
    reads defaultState p
    /\ ((profile p = "Scalping" /\ stopLossPips p = lit "8"
         /\ Num.mul (stopLossPips p) (lit "1.5") = lit "12")
        \/ (profile p = "Day Trade" /\ stopLossPips p = lit "20"
            /\ Num.mul (stopLossPips p) (lit "1.5") = lit "30")
        \/ (profile p = "Swing" /\ stopLossPips p = lit "45"
            /\ Num.mul (stopLossPips p) (lit "1.5") = lit "67.5"))
    /\ Num.isFinite (Num.mul (stopLossPips p) (lit "1.5")) = true
    /\ (0 < Num.to_Q (Num.mul (stopLossPips p) (lit "1.5")))%Q
    /\ (forall s, Num.mul (stopLossPips p) (lit "1.5") <> S754_zero s)
    /\ lotSize p
       = Num.Number
           (Num.toFixed 2
              (Num.div (riskCapital p) (Num.mul (stopLossPips p) (lit "1.5")))).
Proof. apply (lot_divisor_positive defaultState). vm_compute. reflexivity. Defined.

(** ** The automation level *)

Lemma map_JStr_injective (l1 l2 : list string) :
  List.map JStr l1 = List.map JStr l2 -> l1 = l2.
Proof.
  revert l2. induction l1 as [|a l1 IH]; intros [|b l2] H; try discriminate.
  - reflexivity.
  - cbn in H. injection H as -> H. rewrite (IH l2 H). reflexivity.
Qed.

(** The observation of a valid input holds no line feed. *)
Lemma observation_single_line (p : StrategyInput) :
  In (profile p) profiles -> In (automationLevel p) automationLevels ->
  single_line (observation_line p) = true.
Proof.
  unfold observation_line. cbn [In profiles automationLevels].
  intros [E1 | [E1 | [E1 | []]]] [E2 | [E2 | [E2 | []]]];
    rewrite <- E1, <- E2; vm_compute; reflexivity.
Qed.

(** C10. Two valid payloads that differ in the automation level only give
    reports with the same lines except the last one, the observation; the
    risk capital, the stop loss, the take-profit multiplier and the lot
    size are the same. *)
Theorem automation_level_only_in_observation (o1 o2 : gmap string jsval) :
  valid o1 = true -> valid o2 = true ->
  (forall key, key <> "automationLevel" -> get o1 key = get o2 key) ->
  exists p1 p2,
    reads o1 p1 /\ reads o2 p2
    /\ generate (JObj o1) = Report (buildStrategy p1)
    /\ generate (JObj o2) = Report (buildStrategy p2)
    /\ p2 = with_automationLevel (automationLevel p2) p1
    /\ riskCapital p1 = riskCapital p2
    /\ stopLossPips p1 = stopLossPips p2
    /\ takeProfitMultiplier p1 = takeProfitMultiplier p2
    /\ lotSize p1 = lotSize p2
    /\ lines (buildStrategy p1)
       = (lines (report_head p1) ++ [observation_line p1])%list
    /\ lines (buildStrategy p2)
       = (lines (report_head p1) ++ [observation_line p2])%list
    /\ removelast (lines (buildStrategy p1))
       = removelast (lines (buildStrategy p2)).
Proof.
  intros Hv1 Hv2 Hsame.
  destruct (valid_reads o1 Hv1) as (p1 & Hp1).
  destruct (valid_reads o2 Hv2) as (p2 & Hp2).
  exists p1, p2.
  assert (p2 = with_automationLevel (automationLevel p2) p1) as Hp.
  { destruct Hp1 as (A1 & A2 & A3 & A4 & A5 & _).
    destruct Hp2 as (B1 & B2 & B3 & B4 & B5 & _).
    rewrite (Hsame "profile") in A1 by discriminate.
    rewrite (Hsame "capital") in A2 by discriminate.
    rewrite (Hsame "riskPerTrade") in A3 by discriminate.
    rewrite (Hsame "indicators") in A4 by discriminate.
    rewrite (Hsame "session") in A5 by discriminate.
    rewrite B1 in A1. rewrite B2 in A2. rewrite B3 in A3. rewrite B4 in A4.
    rewrite B5 in A5.
    injection A1 as A1. injection A2 as A2. injection A3 as A3.
    injection A4 as A4. injection A5 as A5.
    apply map_JStr_injective in A4.
    destruct p1, p2; cbn in *; subst. reflexivity. }
  destruct (valid_typed_fields o1 p1 Hv1 Hp1) as (Hprof1 & _ & _ & _ & _ & _ & Ha1).
  destruct (valid_typed_fields o2 p2 Hv2 Hp2) as (Hprof2 & _ & _ & _ & _ & _ & Ha2).
  pose proof (lines_buildStrategy p1 (observation_single_line p1 Hprof1 Ha1)) as L1.
  pose proof (lines_buildStrategy p2 (observation_single_line p2 Hprof2 Ha2)) as L2.
  assert (report_head p2 = report_head p1) as Hhead by (rewrite Hp; reflexivity).
  rewrite Hhead in L2.
  split; [exact Hp1|]. split; [exact Hp2|].
  split; [apply generate_valid; assumption|].
  split; [apply generate_valid; assumption|].
  split; [exact Hp|].
  split; [rewrite Hp; reflexivity|]. split; [rewrite Hp; reflexivity|].
  split; [rewrite Hp; reflexivity|]. split; [rewrite Hp; reflexivity|].
  split; [exact L1|]. split; [exact L2|].
  rewrite L1, L2, !removelast_last. reflexivity.
Qed.

Lemma automation_level_only_in_observation_witness :
  exists p1 p2,
    reads defaultState p1
    /\ reads (<["automationLevel" := JStr "Manual"]> defaultState) p2
    /\ generate (JObj defaultState) = Report (buildStrategy p1)
    /\ generate (JObj (<["automationLevel" := JStr "Manual"]> defaultState))
       = Report (buildStrategy p2)
    /\ p2 = with_automationLevel (automationLevel p2) p1
    /\ riskCapital p1 = riskCapital p2
    /\ stopLossPips p1 = stopLossPips p2
    /\ takeProfitMultiplier p1 = takeProfitMultiplier p2
    /\ lotSize p1 = lotSize p2
    /\ lines (buildStrategy p1)
       = (lines (report_head p1) ++ [observation_line p1])%list
    /\ lines (buildStrategy p2)
       = (lines (report_head p1) ++ [observation_line p2])%list
    /\ removelast (lines (buildStrategy p1))
       = removelast (lines (buildStrategy p2)).
Proof.
  apply (automation_level_only_in_observation
           defaultState (<["automationLevel" := JStr "Manual"]> defaultState)).
  - vm_compute. reflexivity.
  - vm_compute. reflexivity.
  - intros key Hkey. symmetry. apply get_insert_ne. congruence.
Defined.

End Report.

(* ===================================================================== *)
(** * Properties of the form and its controls *)
(* ===================================================================== *)

Section Form.
Import Zod Page Rules Layout Text NumberText Interaction.

(** ** Changes *)

Lemma currentState_handleChange (partial : gmap string jsval) (st : state) :
  currentState (handleChange partial st) = partial ∪ currentState st.
Proof. reflexivity. Qed.

Lemma currentState_change_one (key : string) (v : jsval) (st : state) :
  currentState (handleChange {[ key := v ]} st) = <[key := v]> (currentState st).
Proof.
  rewrite currentState_handleChange. symmetry. apply insert_union_singleton_l.
Qed.

Lemma member_one_of (s : string) (options : list string) :
  member s options = true -> one_of options (JStr s) = true.
Proof. intros H. exact H. Qed.

Lemma parseNumber_finite (value : string) (fallback : Num.num) :
  Num.isFinite fallback = true -> Num.isFinite (parseNumber value fallback) = true.
Proof.
  intros H. unfold parseNumber.
  destruct (Num.isFinite (StringToNumber value)) eqn:E; assumption.
Qed.

Lemma includes_strings (l : list string) (option : string) :
  includes (List.map JStr l) option = true <-> In option l.
Proof.
  unfold includes. rewrite existsb_exists. split.
  - intros (item & Hin & His). apply in_map_iff in Hin as (s & <- & Hs).
    cbn in His. apply String.eqb_eq in His. subst. exact Hs.
  - intros H. exists (JStr option). split; [apply in_map; exact H|].
    cbn. apply String.eqb_refl.
Qed.

Lemma without_strings (l : list string) (option : string) :
  without option (List.map JStr l)
  = List.map JStr (List.filter (fun s => negb (String.eqb s option)) l).
Proof.
  unfold without. induction l as [|s l IH]; [reflexivity|].
  cbn. destruct (String.eqb s option); cbn; rewrite IH; reflexivity.
Qed.

(** ** What the controls keep *)

Lemma well_formed_default : well_formed defaultState.
Proof.
  unfold well_formed. repeat apply conj.
  - vm_compute. reflexivity.
  - eexists. split; [reflexivity | vm_compute; reflexivity].
  - eexists. split; [reflexivity | vm_compute; reflexivity].
  - exists [ "Média Móvel Exponencial (EMA)"; "Índice de Força Relativa (RSI)" ].
    repeat apply conj.
    + reflexivity.
    + constructor; [rewrite list_elem_of_In; cbn; intros [H | []]; discriminate H|].
      constructor; [rewrite list_elem_of_In; intros []|]. constructor.
    + intros x [<- | [<- | []]]; cbn; tauto.
  - vm_compute. reflexivity.
  - vm_compute. reflexivity.
Qed.

Ltac well_formed_insert :=
  unfold well_formed; rewrite ?get_insert;
  repeat rewrite get_insert_ne by discriminate;
  repeat apply conj; assumption.

Lemma well_formed_profile (o : gmap string jsval) (v : string) :
  well_formed o -> member v profiles = true ->
  well_formed (<["profile" := JStr v]> o).
Proof. intros (H1 & H2 & H3 & H4 & H5 & H6) Hv. well_formed_insert. Qed.

Lemma well_formed_session (o : gmap string jsval) (v : string) :
  well_formed o -> member v sessions = true ->
  well_formed (<["session" := JStr v]> o).
Proof. intros (H1 & H2 & H3 & H4 & H5 & H6) Hv. well_formed_insert. Qed.

Lemma well_formed_automationLevel (o : gmap string jsval) (v : string) :
  well_formed o -> member v automationLevels = true ->
  well_formed (<["automationLevel" := JStr v]> o).
Proof. intros (H1 & H2 & H3 & H4 & H5 & H6) Hv. well_formed_insert. Qed.

Lemma well_formed_capital (o : gmap string jsval) (x : Num.num) :
  well_formed o -> Num.isFinite x = true ->
  well_formed (<["capital" := JNum x]> o).
Proof.
  intros (H1 & H2 & H3 & H4 & H5 & H6) Hx.
  assert (exists y, JNum x = JNum y /\ Num.isFinite y = true) as H by eauto.
  well_formed_insert.
Qed.

Lemma well_formed_riskPerTrade (o : gmap string jsval) (x : Num.num) :
  well_formed o -> Num.isFinite x = true ->
  well_formed (<["riskPerTrade" := JNum x]> o).
Proof.
  intros (H1 & H2 & H3 & H4 & H5 & H6) Hx.
  assert (exists y, JNum x = JNum y /\ Num.isFinite y = true) as H by eauto.
  well_formed_insert.
Qed.

Lemma well_formed_indicators (o : gmap string jsval) (l : list string) :
  well_formed o -> NoDup l -> incl l indicatorOptions ->
  well_formed (<["indicators" := JArr (List.map JStr l)]> o).
Proof.
  intros (H1 & H2 & H3 & H4 & H5 & H6) Hd Hi.
  assert (exists l', JArr (List.map JStr l) = JArr (List.map JStr l')
                     /\ NoDup l' /\ incl l' indicatorOptions) as H by eauto.
  well_formed_insert.
Qed.

Lemma NoDup_snoc (l : list string) (x : string) :
  NoDup l -> ~ In x l -> NoDup (l ++ [x])%list.
Proof.
  induction l as [|y l IH]; intros Hd Hx.
  - constructor; [rewrite list_elem_of_In; intros [] | constructor].
  - inversion Hd as [|? ? Hy Hl]; subst. cbn. constructor.
    + rewrite list_elem_of_In in *. rewrite in_app_iff.
      intros [H | [H | []]]; [contradiction|].
      subst. apply Hx. left. reflexivity.
    + apply IH; [exact Hl|]. intros H. apply Hx. right. exact H.
Qed.

Lemma NoDup_filter_strings (f : string -> bool) (l : list string) :
  NoDup l -> NoDup (List.filter f l).
Proof.
  induction l as [|y l IH]; intros Hd; [constructor|].
  inversion Hd as [|? ? Hy Hl]; subst. cbn. destruct (f y); [|apply IH; exact Hl].
  constructor; [|apply IH; exact Hl].
  rewrite list_elem_of_In in *.
  intros H. apply filter_In in H as [H _]. contradiction.
Qed.

(** A check box leaves a list of distinct catalog entries. *)
Lemma well_formed_toggle (option : string) (st : state) :
  member option indicatorOptions = true ->
  well_formed (currentState st) ->
  well_formed (currentState (onIndicatorToggle option st)).
Proof.
  intros Hopt Hwf. unfold onIndicatorToggle.
  pose proof Hwf as (_ & _ & _ & (l & Hl & Hd & Hi) & _).
  rewrite Hl. rewrite currentState_change_one.
  assert (In option indicatorOptions) as Hin.
  { unfold member in Hopt. apply existsb_exists in Hopt as (x & Hx & E).
    apply String.eqb_eq in E. subst. exact Hx. }
  destruct (includes (List.map JStr l) option) eqn:E.
  - rewrite without_strings. apply well_formed_indicators; [exact Hwf| |].
    + apply NoDup_filter_strings. exact Hd.
    + intros x Hx. apply filter_In in Hx as [Hx _]. apply Hi. exact Hx.
  - change [JStr option] with (List.map JStr [option]). rewrite <- List.map_app.
    apply well_formed_indicators; [exact Hwf| |].
    + apply NoDup_snoc; [exact Hd|]. intros H.
      apply includes_strings in H. congruence.
    + intros x Hx. apply in_app_iff in Hx as [Hx | [<- | []]];
        [apply Hi; exact Hx | exact Hin].
Qed.

Lemma strings_are_strings (l : list string) :
  List.forallb is_string (List.map JStr l) = true.
Proof. induction l as [|s l IH]; [reflexivity | exact IH]. Qed.

Lemma finite_not_NaN (x : Num.num) : Num.isFinite x = true -> Num.isNaN x = false.
Proof. destruct x; (reflexivity || discriminate). Qed.

(** On a well-formed form only three rules can fail, with four messages. *)
Lemma well_formed_failure (o : gmap string jsval) :
  well_formed o -> valid o = false ->
  exists m, In m form_messages /\ generate (JObj o) = Failure m.
Proof.
  intros (P & (c & Hc & Fc) & (r & Hr & Fr) & (l & Hl & _ & _) & S & A) Hv.
  destruct (invalid_first_failing o Hv) as (f & Hf & Hrule).
  destruct (generate_first_failing o f Hf) as (i & Hi & Hg).
  exists (message i). split; [|exact Hg].
  unfold field_issues in Hi. unfold rule in Hrule.
  destruct f; cbn [field_name rule_on] in Hi, Hrule.
  - congruence.
  - rewrite Hc in Hi.
    change (field_schema f_capital) with (z_number [check_min (lit "100")]) in Hi.
    cbn [issues List.flat_map check_issue app] in Hi.
    rewrite (finite_not_NaN c Fc) in Hi.
    destruct (Num.lt c (lit "100")); [|discriminate Hi].
    injection Hi as <-. left. reflexivity.
  - rewrite Hr in Hi.
    change (field_schema f_riskPerTrade)
      with (z_number [check_min (lit "0.1"); check_max (lit "5")]) in Hi.
    cbn [issues List.flat_map check_issue app] in Hi.
    rewrite (finite_not_NaN r Fr) in Hi.
    destruct (Num.lt r (lit "0.1")).
    + injection Hi as <-. right. left. reflexivity.
    + destruct (Num.gt r (lit "5")); [|discriminate Hi].
      injection Hi as <-. right. right. left. reflexivity.
  - rewrite Hl in Hi.
    change (issues (field_schema f_indicators) [PKey "indicators"]
              (JArr (List.map JStr l)))
      with ((if (List.length (List.map JStr l) <? 1)%nat
             then [ indicators_issue ] else [])
            ++ items_issues (issues z_string) [PKey "indicators"] 0
                 (List.map JStr l))%list in Hi.
    assert (items_issues (issues z_string) [PKey "indicators"] 0 (List.map JStr l) = [])
      as E by (apply string_items_issues, strings_are_strings).
    rewrite E in Hi.
    destruct (List.length (List.map JStr l) <? 1)%nat; [|discriminate Hi].
    injection Hi as <-. right. right. right. left. reflexivity.
  - congruence.
  - congruence.
Qed.

(** Every control keeps the invariant. *)
Lemma step_invariant (st : state) (e : event) :
  offered e = true -> invariant st -> invariant (step st e).
Proof.
  intros He (Hwf & Herr & Hres).
  destruct e as [v | text | text | v | option | v | |]; cbn [step offered] in *.
  - split; [|split; assumption].
    unfold onProfileChange. rewrite currentState_change_one.
    apply well_formed_profile; assumption.
  - split; [|split; assumption].
    unfold onCapitalChange. rewrite currentState_change_one.
    apply well_formed_capital; [assumption|].
    apply parseNumber_finite. vm_compute. reflexivity.
  - split; [|split; assumption].
    unfold onRiskChange. rewrite currentState_change_one.
    apply well_formed_riskPerTrade; [assumption|].
    apply parseNumber_finite. vm_compute. reflexivity.
  - split; [|split; assumption].
    unfold onSessionChange. rewrite currentState_change_one.
    apply well_formed_session; assumption.
  - split; [apply well_formed_toggle; assumption|].
    unfold onIndicatorToggle.
    destruct (get (currentState st) "indicators"); split; assumption.
  - split; [|split; assumption].
    unfold onAutomationClick. rewrite currentState_change_one.
    apply well_formed_automationLevel; assumption.
  - unfold handleGenerate. fold (currentState st).
    destruct (valid (currentState st)) eqn:Hv.
    + destruct (valid_reads _ Hv) as (p & Hp).
      rewrite (generate_valid _ p Hv Hp).
      split; [exact Hwf|]. split; [left; reflexivity|].
      right. exists (currentState st), p.
      split; [exact Hwf|]. split; [exact Hv|]. split; [exact Hp | reflexivity].
    + destruct (well_formed_failure _ Hwf Hv) as (m & Hm & Hg). rewrite Hg.
      split; [exact Hwf|]. split; [|exact Hres].
      right. exists m. split; [reflexivity | exact Hm].
  - split; [exact well_formed_default|]. split; left; reflexivity.
Qed.

Lemma run_invariant (events : list event) (st : state) :
  List.forallb offered events = true -> invariant st ->
  invariant (run events st).
Proof.
  revert st. induction events as [|e events IH]; intros st Hev Hst; [exact Hst|].
  cbn [List.forallb] in Hev. apply andb_prop in Hev as [He Hev].
  cbn [run List.fold_left]. apply (IH (step st e) Hev).
  apply step_invariant; assumption.
Qed.

Lemma initial_invariant : invariant initial.
Proof.
  split; [exact well_formed_default|]. split; left; reflexivity.
Qed.

Lemma controls_form_invariant (events : list event) :
  List.forallb offered events = true ->
  well_formed (currentState (run events initial)).
Proof.
  intros H. apply (run_invariant events initial H initial_invariant).
Qed.

(** X1. Whatever the user does with the controls, starting from the fresh
    page, the current form stays well formed: profile, session and
    automation level within their options, capital and risk finite Numbers,
    and the indicators a list of distinct entries of [indicatorOptions]. *)
Theorem controls_keep_form_well_formed (events : list event) :
  List.forallb offered events = true ->
  well_formed (currentState (run events initial)).
Proof.
  intros H. apply (run_invariant events initial H initial_invariant).
Qed.

Lemma controls_keep_form_well_formed_witness :
  well_formed
    (currentState
       (run [ IndicatorToggle "MACD"; CapitalChange "abc"; GenerateClick;
              IndicatorToggle "MACD"; ProfileChange "Swing" ] initial)).
Proof. apply controls_keep_form_well_formed. vm_compute. reflexivity. Defined.

(** X2. Along every run of the controls the error shown is none or one of
    four messages: capital too small, risk too small, risk too big, no
    indicator. Pressing the button on the form reached gives a report or
    one of these four. *)
Theorem controls_meet_four_messages (events : list event) :
  List.forallb offered events = true ->
  (error (run events initial) = None
   \/ exists m, error (run events initial) = Some m /\ In m form_messages)
  /\ ((exists text,
         generate (JObj (currentState (run events initial))) = Report text)
      \/ (exists m,
            generate (JObj (currentState (run events initial))) = Failure m
            /\ In m form_messages)).
Proof.
  intros H.
  destruct (run_invariant events initial H initial_invariant) as (Hwf & Herr & _).
  split; [exact Herr|].
  destruct (valid (currentState (run events initial))) eqn:Hv.
  - left. destruct (valid_reads _ Hv) as (p & Hp).
    eexists. apply (generate_valid _ p Hv Hp).
  - right. destruct (well_formed_failure _ Hwf Hv) as (m & Hm & Hg). eauto.
Qed.

Lemma controls_meet_four_messages_witness :
  let events := [ IndicatorToggle "Índice de Força Relativa (RSI)";
                  RiskChange "7.5"; GenerateClick; CapitalChange "" ] in
  (error (run events initial) = None
   \/ exists m, error (run events initial) = Some m /\ In m form_messages)
  /\ ((exists text,
         generate (JObj (currentState (run events initial))) = Report text)
      \/ (exists m,
            generate (JObj (currentState (run events initial))) = Failure m
            /\ In m form_messages)).
Proof.
  intros events. apply (controls_meet_four_messages events).
  vm_compute. reflexivity.
Defined.

(** X3. Along every run of the controls the report on display, if any, was
    built from a well-formed form that passed validation. *)
Theorem reports_come_from_valid_forms (events : list event) :
  List.forallb offered events = true ->
  result (run events initial) = None
  \/ exists o p,
       well_formed o /\ valid o = true /\ reads o p
       /\ result (run events initial) = Some (buildStrategy p).
Proof.
  intros H.
  destruct (run_invariant events initial H initial_invariant) as (_ & _ & Hres).
  exact Hres.
Qed.

Lemma reports_come_from_valid_forms_witness :
  let events := [ CapitalChange "500"; GenerateClick; CapitalChange "5";
                  GenerateClick ] in
  result (run events initial) = None
  \/ exists o p,
       well_formed o /\ valid o = true /\ reads o p
       /\ result (run events initial) = Some (buildStrategy p).
Proof.
  intros events. apply (reports_come_from_valid_forms events).
  vm_compute. reflexivity.
Defined.

Lemma well_formed_valid_iff (o : gmap string jsval) :
  well_formed o ->
  valid o = true
  <-> Num.ge (number_at o "capital") (lit "100") = true
      /\ Num.ge (number_at o "riskPerTrade") (lit "0.1") = true
      /\ Num.le (number_at o "riskPerTrade") (lit "5") = true
      /\ get o "indicators" <> JArr [].
Proof.
  intros (P & (c & Hc & Fc) & (r & Hr & Fr) & (l & Hl & _ & _) & S & A).
  unfold valid, priority, rule, number_at. cbn [List.forallb field_name rule_on].
  rewrite P, S, A, Hc, Hr, Hl. cbn [andb].
  rewrite strings_are_strings, !andb_true_r.
  destruct (Num.ge c (lit "100")); cbn [andb]; [|split; [discriminate | intros (E & _); discriminate E]].
  destruct (Num.ge r (lit "0.1")); cbn [andb];
    [|split; [discriminate | intros (_ & E & _); discriminate E]].
  destruct (Num.le r (lit "5")); cbn [andb];
    [|split; [discriminate | intros (_ & _ & E & _); discriminate E]].
  destruct l as [|s l]; cbn.
  - split; [discriminate | intros (_ & _ & _ & E); contradiction].
  - split; [intros _; repeat split; discriminate | reflexivity].
Qed.

(** X4. On a form reached through the controls, the button gives a report
    exactly when the capital is at least 100, the risk lies in [0.1, 5]
    and at least one indicator is ticked: the three enumerations never
    stand in the way. *)
Theorem controls_report_iff (events : list event) :
  List.forallb offered events = true ->
  (exists text, generate (JObj (currentState (run events initial))) = Report text)
  <-> (Num.ge (number_at (currentState (run events initial)) "capital")
              (lit "100") = true
       /\ Num.ge (number_at (currentState (run events initial)) "riskPerTrade")
                 (lit "0.1") = true
       /\ Num.le (number_at (currentState (run events initial)) "riskPerTrade")
                 (lit "5") = true
       /\ get (currentState (run events initial)) "indicators" <> JArr []).
Proof.
  intros H. pose proof (controls_form_invariant events H) as Hwf.
  rewrite <- (well_formed_valid_iff _ Hwf). split.
  - intros (text & Hg).
    destruct (valid (currentState (run events initial))) eqn:Hv; [reflexivity|].
    destruct (first_failing_rule_is_reported _ Hv) as (i & Hi). congruence.
  - intros Hv. destruct (valid_reads _ Hv) as (p & Hp).
    eexists. apply (generate_valid _ p Hv Hp).
Qed.

Lemma controls_report_iff_witness :
  let events := [ IndicatorToggle "Parabolic SAR"; CapitalChange "99.99" ] in
  (exists text, generate (JObj (currentState (run events initial))) = Report text)
  <-> (Num.ge (number_at (currentState (run events initial)) "capital")
              (lit "100") = true
       /\ Num.ge (number_at (currentState (run events initial)) "riskPerTrade")
                 (lit "0.1") = true
       /\ Num.le (number_at (currentState (run events initial)) "riskPerTrade")
                 (lit "5") = true
       /\ get (currentState (run events initial)) "indicators" <> JArr []).
Proof.
  intros events. apply (controls_report_iff events). vm_compute. reflexivity.
Defined.

(** ** Reset and repeated clicks *)

Lemma same_view_change (partial : gmap string jsval) (a b : state) :
  same_view a b -> same_view (handleChange partial a) (handleChange partial b).
Proof.
  intros (Hc & He & Hr). unfold same_view.
  rewrite !currentState_handleChange, Hc. cbn. auto.
Qed.

Lemma same_view_step (a b : state) (e : event) :
  same_view a b -> same_view (step a e) (step b e).
Proof.
  intros Hab. pose proof Hab as (Hc & He & Hr).
  destruct e as [v | text | text | v | option | v | |]; cbn [step];
    try (apply same_view_change; exact Hab).
  - unfold onIndicatorToggle. rewrite Hc.
    destruct (get (currentState b) "indicators");
      first [exact Hab | apply same_view_change; exact Hab].
  - unfold handleGenerate. fold (currentState a). fold (currentState b).
    rewrite Hc. destruct (generate (JObj (currentState b)));
      unfold same_view, currentState; cbn; fold (currentState a);
      fold (currentState b); auto.
  - unfold same_view. cbn. auto.
Qed.

(** X5. The reset button is as good as a fresh page: after it, every run of
    events shows the same form, the same error and the same result as the
    same run from the initial state, whatever the state was before. *)
Theorem reset_is_fresh (st : state) (events : list event) :
  same_view (run events (onReset st)) (run events initial).
Proof.
  assert (same_view (onReset st) initial) as H by (unfold same_view; cbn; auto).
  revert H. generalize (onReset st) initial.
  induction events as [|e events IH]; intros a b Hab; [exact Hab|].
  cbn [run List.fold_left]. apply IH. apply same_view_step. exact Hab.
Qed.

(** X6. Pressing the button twice is pressing it once: the second click
    finds the same form and leaves error and result as the first did. *)
Theorem handleGenerate_idempotent (st : state) :
  handleGenerate (handleGenerate st) = handleGenerate st.
Proof.
  unfold handleGenerate.
  destruct (generate (JObj (default defaultState (form st)))) eqn:E;
    cbn [form]; rewrite E; reflexivity.
Qed.

(** ** Changes of one field *)

(** X7. A change merges into the current form: the keys of the change read
    their new value, every other key reads as before (as in [defaultState]
    while the form is untouched), error and result stay, and two changes in
    a row are the one change in which the later wins. *)
Theorem handleChange_merges (p1 p2 : gmap string jsval) (st : state) :
  (forall key v, p1 !! key = Some v ->
                 get (currentState (handleChange p1 st)) key = v)
  /\ (forall key, p1 !! key = None ->
                  get (currentState (handleChange p1 st)) key
                  = get (currentState st) key)
  /\ error (handleChange p1 st) = error st
  /\ result (handleChange p1 st) = result st
  /\ handleChange p2 (handleChange p1 st) = handleChange (p2 ∪ p1) st.
Proof.
  repeat apply conj; try reflexivity.
  - intros key v H. rewrite currentState_handleChange. unfold get.
    rewrite (lookup_union_Some_l _ _ _ _ H). reflexivity.
  - intros key H. rewrite currentState_handleChange. unfold get.
    rewrite (lookup_union_r _ _ _ H). reflexivity.
  - unfold handleChange. cbn. rewrite (assoc_L (∪)). reflexivity.
Qed.

Lemma includes_without (option : string) (items : list jsval) :
  includes (without option items) option = false.
Proof.
  unfold includes, without. induction items as [|v items IH]; [reflexivity|].
  cbn. destruct (is_option option v) eqn:E; cbn; [exact IH|].
  rewrite E. exact IH.
Qed.

Lemma without_not_included (option : string) (items : list jsval) :
  includes items option = false -> without option items = items.
Proof.
  unfold includes, without. induction items as [|v items IH]; [reflexivity|].
  cbn. destruct (is_option option v); cbn; [discriminate|].
  intros H. rewrite (IH H). reflexivity.
Qed.

Lemma includes_appended (option : string) (items : list jsval) :
  includes (items ++ [JStr option]) option = true.
Proof.
  unfold includes. rewrite existsb_app. cbn. rewrite String.eqb_refl.
  rewrite orb_true_r. reflexivity.
Qed.

Lemma without_appended (option : string) (items : list jsval) :
  without option (items ++ [JStr option]) = without option items.
Proof.
  unfold without. rewrite List.filter_app. cbn. rewrite String.eqb_refl. cbn.
  apply app_nil_r.
Qed.

(** X8. Ticking a box and unticking it again restores the list of
    indicators exactly; unticking and ticking again moves the indicator to
    the end of the list. No other field changes. *)
Theorem toggle_twice (option : string) (st : state) (items : list jsval) :
  get (currentState st) "indicators" = JArr items ->
  get (currentState (onIndicatorToggle option (onIndicatorToggle option st)))
      "indicators"
  = JArr (if includes items option
          then (without option items ++ [JStr option])%list
          else items)
  /\ (forall key, key <> "indicators" ->
        get (currentState (onIndicatorToggle option (onIndicatorToggle option st)))
            key
        = get (currentState st) key).
Proof.
  intros Hitems.
  set (items1 := if includes items option then without option items
                 else (items ++ [JStr option])%list).
  assert (currentState (onIndicatorToggle option st)
          = <["indicators" := JArr items1]> (currentState st)) as H1.
  { unfold onIndicatorToggle. rewrite Hitems. apply currentState_change_one. }
  set (items2 := if includes items1 option then without option items1
                 else (items1 ++ [JStr option])%list).
  assert (currentState (onIndicatorToggle option (onIndicatorToggle option st))
          = <["indicators" := JArr items2]>
              (<["indicators" := JArr items1]> (currentState st))) as H2.
  { unfold onIndicatorToggle at 1. rewrite H1 at 1. rewrite get_insert.
    rewrite currentState_change_one, H1. reflexivity. }
  rewrite H2. split.
  - rewrite get_insert. f_equal. unfold items2, items1.
    destruct (includes items option) eqn:E.
    + rewrite includes_without. reflexivity.
    + rewrite includes_appended, without_appended.
      apply without_not_included. exact E.
  - intros key Hkey. rewrite !get_insert_ne by congruence. reflexivity.
Qed.

Lemma toggle_twice_witness :
  get (currentState (onIndicatorToggle "MACD" (onIndicatorToggle "MACD" initial)))
      "indicators"
  = JArr (if includes [ JStr "Média Móvel Exponencial (EMA)";
                        JStr "Índice de Força Relativa (RSI)" ] "MACD"
          then (without "MACD" [ JStr "Média Móvel Exponencial (EMA)";
                                 JStr "Índice de Força Relativa (RSI)" ]
                ++ [JStr "MACD"])%list
          else [ JStr "Média Móvel Exponencial (EMA)";
                 JStr "Índice de Força Relativa (RSI)" ])
  /\ (forall key, key <> "indicators" ->
        get (currentState (onIndicatorToggle "MACD" (onIndicatorToggle "MACD" initial)))
            key
        = get (currentState initial) key).
Proof. apply (toggle_twice "MACD" initial). reflexivity. Defined.

(** ** The number fields *)

Lemma StringToNumber_blank (text : string) :
  trim text = "" -> StringToNumber text = S754_zero false.
Proof. intros H. unfold StringToNumber. rewrite H. reflexivity. Qed.

(** The decimal reading of [Num.Number] is all there is to a text without
    white space at its ends and without a radix prefix. *)
Lemma StringToNumber_decimal (text : string) :
  trim text = text ->
  (forall c d r, text = String "0" (String c (String d r)) -> radix_of c = None) ->
  StringToNumber text = Num.Number text.
Proof.
  intros Ht Hr. unfold StringToNumber. rewrite Ht.
  destruct text as [|a t]; [reflexivity|].
  destruct a as [[] [] [] [] [] [] [] []]; try reflexivity.
  destruct t as [|c [|d r]]; try reflexivity.
  rewrite (Hr c d r eq_refl). reflexivity.
Qed.

(** X9. What a text typed in a number field puts in the form: the Number
    it denotes when that is finite; the value of [defaultState], 1000 for the
    capital and 1 for the risk, when it is not, whatever the field held
    before; and 0, not the default, when the text is blank. *)
Theorem number_fields_read_text (text : string) (st : state) :
  (Num.isFinite (StringToNumber text) = true ->
   get (currentState (onCapitalChange text st)) "capital"
   = JNum (StringToNumber text)
   /\ get (currentState (onRiskChange text st)) "riskPerTrade"
      = JNum (StringToNumber text))
  /\ (Num.isFinite (StringToNumber text) = false ->
      get (currentState (onCapitalChange text st)) "capital" = JNum (lit "1000")
      /\ get (currentState (onRiskChange text st)) "riskPerTrade" = JNum (lit "1"))
  /\ (trim text = "" ->
      get (currentState (onCapitalChange text st)) "capital"
      = JNum (S754_zero false)
      /\ get (currentState (onRiskChange text st)) "riskPerTrade"
         = JNum (S754_zero false)).
Proof.
  unfold onCapitalChange, onRiskChange.
  rewrite !currentState_change_one, !get_insert. unfold parseNumber.
  repeat apply conj.
  - intros H. rewrite H. split; reflexivity.
  - intros H. rewrite H. split; reflexivity.
  - intros H. rewrite (StringToNumber_blank text H). split; reflexivity.
Qed.

Lemma capital_failure (o : gmap string jsval) (x : Num.num) :
  rule f_profile o = true -> get o "capital" = JNum x ->
  Num.lt x (lit "100") = true ->
  generate (JObj o) = Failure (message capital_issue).
Proof.
  intros Hp Hget Hlt.
  assert (Num.isNaN x = false) as Hx by (destruct x; (reflexivity || discriminate Hlt)).
  assert (field_issues f_capital o = [capital_issue]) as Hissues.
  { unfold field_issues. cbn [field_name]. rewrite Hget.
    change (field_schema f_capital) with (z_number [check_min (lit "100")]).
    cbn [issues List.flat_map check_issue app]. rewrite Hx, Hlt. reflexivity. }
  assert (rule f_capital o = false) as Hrule.
  { destruct (rule f_capital o) eqn:E; [|reflexivity].
    apply field_issues_rule in E. congruence. }
  assert (first_failing o = Some f_capital) as Hf
      by (unfold first_failing, priority; cbn [List.find]; rewrite Hp, Hrule; reflexivity).
  destruct (generate_first_failing o _ Hf) as (i & Hi & Hg).
  rewrite Hissues in Hi. injection Hi as <-. exact Hg.
Qed.

(** X10. After any run of the controls, a text in the capital field that
    denotes a finite Number below 100 (a blank one denotes 0) makes the
    button show the capital message, and leaves the result as it was. *)
Theorem low_capital_text_shows_capital_message (events : list event)
    (text : string) :
  List.forallb offered events = true ->
  Num.isFinite (StringToNumber text) = true ->
  Num.lt (StringToNumber text) (lit "100") = true ->
  error (handleGenerate (onCapitalChange text (run events initial)))
  = Some (message capital_issue)
  /\ result (handleGenerate (onCapitalChange text (run events initial)))
     = result (run events initial).
Proof.
  intros Hev Hfin Hlt.
  pose proof (controls_form_invariant events Hev) as Hwf.
  set (st := run events initial) in *.
  assert (generate (JObj (currentState (onCapitalChange text st)))
          = Failure (message capital_issue)) as Hg.
  { apply (capital_failure _ (StringToNumber text)); [| |exact Hlt].
    - unfold onCapitalChange. rewrite currentState_change_one.
      unfold rule. cbn [field_name]. rewrite get_insert_ne by discriminate.
      destruct Hwf as (P & _). exact P.
    - unfold onCapitalChange. rewrite currentState_change_one, get_insert.
      unfold parseNumber. rewrite Hfin. reflexivity. }
  unfold handleGenerate. fold (currentState (onCapitalChange text st)).
  rewrite Hg. split; reflexivity.
Qed.

Lemma low_capital_text_shows_capital_message_witness :
  let events := [ ProfileChange "Swing"; GenerateClick ] in
  error (handleGenerate (onCapitalChange "" (run events initial)))
  = Some (message capital_issue)
  /\ result (handleGenerate (onCapitalChange "" (run events initial)))
     = result (run events initial).
Proof.
  intros events. apply (low_capital_text_shows_capital_message events "").
  - vm_compute. reflexivity.
  - vm_compute. reflexivity.
  - vm_compute. reflexivity.
Defined.

(** ** Unknown keys *)

(** X11. Only the six keys of the schema matter: two payloads that agree
    on them, whatever else they hold, get the same report or the same
    message. *)
Theorem unknown_keys_ignored (o1 o2 : gmap string jsval) :
  (forall f, get o1 (field_name f) = get o2 (field_name f)) ->
  generate (JObj o1) = generate (JObj o2).
Proof.
  intros H.
  assert (issues strategySchema [] (JObj o1) = issues strategySchema [] (JObj o2))
    as Hissues.
  { rewrite !issues_by_field. unfold priority, field_issues. cbn [List.flat_map].
    rewrite !H. reflexivity. }
  assert (typed (JObj o1) = typed (JObj o2)) as Htyped.
  { pose proof (H f_profile) as H1. pose proof (H f_capital) as H2.
    pose proof (H f_riskPerTrade) as H3. pose proof (H f_indicators) as H4.
    pose proof (H f_session) as H5. pose proof (H f_automationLevel) as H6.
    cbn [field_name] in H1, H2, H3, H4, H5, H6.
    unfold typed. rewrite H1, H2, H3, H4, H5, H6. reflexivity. }
  unfold generate, parse. rewrite Hissues.
  destruct (issues strategySchema [] (JObj o2)); [|reflexivity].
  rewrite Htyped. reflexivity.
Qed.

Lemma unknown_keys_ignored_witness :
  generate (JObj (<["comment" := JStr "x"]> (<["capital" := JNum (lit "50")]> defaultState)))
  = generate (JObj (<["capital" := JNum (lit "50")]> defaultState)).
Proof.
  apply unknown_keys_ignored. intros f. apply get_insert_ne.
  destruct f; discriminate.
Defined.

(** ** The lines of a report *)

Lemma all_digits_single_line (s : string) :
  Num.all_digits s = true -> single_line s = true.
Proof.
  induction s as [|c s IH]; [reflexivity|].
  cbn [Num.all_digits single_line]. intros H. apply andb_prop in H as [Hc Hs].
  rewrite (IH Hs), andb_true_r.
  destruct (Ascii.eqb_spec c (ascii_of_nat 10)) as [-> | _]; [discriminate Hc | reflexivity].
Qed.

Lemma single_line_substring (i j : nat) (s : string) :
  single_line s = true -> single_line (substring i j s) = true.
Proof.
  revert i j. induction s as [|c s IH]; intros i j H.
  - destruct i, j; reflexivity.
  - cbn [single_line] in H. apply andb_prop in H as [Hc Hs].
    destruct i as [|i]; [destruct j as [|j]|]; cbn [substring].
    + reflexivity.
    + cbn [single_line]. rewrite Hc, (IH 0%nat j Hs). reflexivity.
    + apply IH. exact Hs.
Qed.

Lemma single_line_digits (n : Z) : single_line (Num.digits n) = true.
Proof. apply all_digits_single_line, all_digits_digits. Qed.

Lemma single_line_zeros (n : nat) : single_line (Num.zeros n) = true.
Proof. apply all_digits_single_line, all_digits_zeros. Qed.

Lemma single_line_format_decimal (s n k : Z) :
  single_line (Num.format_decimal s n k) = true.
Proof.
  unfold Num.format_decimal, Num.sub.
  repeat match goal with
         | |- context [if ?b then _ else _] => destruct b
         end;
    rewrite ?single_line_append, ?single_line_digits, ?single_line_zeros,
      ?single_line_substring by apply single_line_digits;
    reflexivity.
Qed.

(** No rendering of a Number holds a line feed. *)
Lemma single_line_toString (x : Num.num) : single_line (Num.toString x) = true.
Proof.
  destruct x as [s|s| |s m e]; cbn [Num.toString]; try reflexivity.
  - destruct s; reflexivity.
  - rewrite single_line_append.
    destruct (Num.shortest _) as [[[d n] k]|];
      [rewrite single_line_format_decimal|]; destruct s; reflexivity.
Qed.

Lemma single_line_fixed_digits (f : nat) (n : Z) :
  single_line (Num.fixed_digits f n) = true.
Proof.
  unfold Num.fixed_digits.
  assert (single_line (if (n =? 0)%Z then "0" else Num.digits n) = true) as Hm
      by (destruct (n =? 0)%Z; [reflexivity | apply single_line_digits]).
  destruct f as [|f]; [exact Hm|].
  cbv zeta.
  rewrite !single_line_append, !single_line_substring;
    rewrite ?single_line_append, ?single_line_zeros, ?Hm; reflexivity.
Qed.

Lemma single_line_toFixed (f : nat) (x : Num.num) :
  single_line (Num.toFixed f x) = true.
Proof.
  unfold Num.toFixed.
  destruct x as [s|s| |s m e]; try apply single_line_toString;
    cbv zeta; destruct (Num.Qltb _ 0); destruct (Qle_bool _ _);
    rewrite single_line_append, ?single_line_toString, ?single_line_fixed_digits;
    reflexivity.
Qed.

Lemma single_line_concat (sep : string) (l : list string) :
  single_line sep = true -> List.forallb single_line l = true ->
  single_line (String.concat sep l) = true.
Proof.
  intros Hsep. induction l as [|a l IH]; [reflexivity|].
  cbn [List.forallb]. intros H. apply andb_prop in H as [Ha Hl].
  destruct l as [|b l]; [exact Ha|].
  change (String.concat sep (a :: b :: l))
    with (a +:+ sep +:+ String.concat sep (b :: l)).
  rewrite !single_line_append, Ha, Hsep, (IH Hl). reflexivity.
Qed.

Lemma lines_concat (l : list string) :
  l <> [] -> List.forallb single_line l = true ->
  lines (String.concat nl l) = l.
Proof.
  induction l as [|a l IH]; [contradiction|]. intros _.
  cbn [List.forallb]. intros H. apply andb_prop in H as [Ha Hl].
  destruct l as [|b l]; [apply lines_single; exact Ha|].
  change (String.concat nl (a :: b :: l))
    with (a +:+ nl +:+ String.concat nl (b :: l)).
  rewrite lines_append_nl, (lines_single a Ha), IH; [reflexivity|discriminate|exact Hl].
Qed.

Lemma single_line_options (s : string) :
  In s profiles \/ In s sessions ->
  single_line s = true /\ single_line (entry sessionCharacteristics s) = true.
Proof.
  cbn. intros [[<- | [<- | [<- | []]]] | [<- | [<- | [<- | []]]]];
    split; vm_compute; reflexivity.
Qed.

Lemma lines_of_report (o : gmap string jsval) (p : StrategyInput) :
  valid o = true -> reads o p ->
  List.forallb single_line (indicators p) = true ->
  lines (buildStrategy p) = report_lines p.
Proof.
  intros Hv Hp Hind.
  destruct (valid_typed_fields o p Hv Hp) as (Hprof & _ & _ & _ & _ & Hs & Ha).
  rewrite buildStrategy_report_lines. apply lines_concat; [discriminate|].
  unfold report_lines. cbn [List.forallb].
  destruct (single_line_options (profile p) (or_introl Hprof)) as (Hp1 & _).
  destruct (single_line_options (session p) (or_intror Hs)) as (Hs1 & Hs2).
  unfold title_line, indicators_line, session_line, risk_line, targets_line,
    lot_line.
  rewrite (observation_single_line p Hprof Ha).
  rewrite !single_line_append, !single_line_toFixed, !single_line_toString,
    Hp1, Hs1, Hs2, (single_line_concat ", " _ eq_refl Hind).
  reflexivity.
Qed.

(** X12. When no indicator holds a line feed, the report of a valid payload
    is exactly seven lines: splitting it at the line feeds gives back the
    seven pieces of the template, in order. *)
Theorem report_has_seven_lines (o : gmap string jsval) (p : StrategyInput) :
  valid o = true -> reads o p ->
  List.forallb single_line (indicators p) = true ->
  lines (buildStrategy p) = report_lines p
  /\ List.length (lines (buildStrategy p)) = 7%nat.
Proof.
  intros Hv Hp Hind. pose proof (lines_of_report o p Hv Hp Hind) as H.
  split; [exact H | rewrite H; reflexivity].
Qed.

Lemma report_has_seven_lines_witness :
  lines (buildStrategy Scenarios.day_trade_scenario)
  = report_lines Scenarios.day_trade_scenario
  /\ List.length (lines (buildStrategy Scenarios.day_trade_scenario)) = 7%nat.
Proof.
  apply (report_has_seven_lines (object_of Scenarios.day_trade_scenario)).
  - vm_compute. reflexivity.
  - apply reads_object_of.
  - reflexivity.
Defined.

(** X13. The line of the targets depends on the profile alone: 8 and 10
    pips for Scalping, 20 and 40 for Day Trade, 45 and 126 for Swing
    (45 x 2.8 is the Number just below 126). *)
Theorem targets_by_profile (o : gmap string jsval) (p : StrategyInput) :
  valid o = true -> reads o p ->
  (profile p = "Scalping"
   /\ targets_line p = "- Stop loss médio: 8 pips | Take profit: 10 pips")
  \/ (profile p = "Day Trade"
      /\ targets_line p = "- Stop loss médio: 20 pips | Take profit: 40 pips")
  \/ (profile p = "Swing"
      /\ targets_line p = "- Stop loss médio: 45 pips | Take profit: 126 pips"
      /\ Num.lt (Num.mul (stopLossPips p) (takeProfitMultiplier p)) (lit "126")
         = true).
Proof.
  intros Hv Hp.
  destruct (valid_typed_fields o p Hv Hp) as (Hprof & _).
  unfold targets_line, stopLossPips, takeProfitMultiplier.
  destruct Hprof as [E | [E | [E | []]]]; rewrite <- E.
  - left. split; vm_compute; reflexivity.
  - right. left. split; vm_compute; reflexivity.
  - right. right. repeat split; vm_compute; reflexivity.
Qed.

Lemma targets_by_profile_witness :
  let p := Scenarios.scalping_scenario ["MACD"] Scenarios.London Scenarios.Manual in
  (profile p = "Scalping"
   /\ targets_line p = "- Stop loss médio: 8 pips | Take profit: 10 pips")
  \/ (profile p = "Day Trade"
      /\ targets_line p = "- Stop loss médio: 20 pips | Take profit: 40 pips")
  \/ (profile p = "Swing"
      /\ targets_line p = "- Stop loss médio: 45 pips | Take profit: 126 pips"
      /\ Num.lt (Num.mul (stopLossPips p) (takeProfitMultiplier p)) (lit "126")
         = true).
Proof.
  intros p. apply (targets_by_profile (object_of p) p).
  - vm_compute. reflexivity.
  - apply reads_object_of.
Defined.

(** X14. On a valid payload neither the risk capital nor the quotient the
    lot size is rounded from is negative: capital and risk are above zero
    and the divisor is 12, 30 or 67.5. *)
Theorem risk_amounts_not_negative (o : gmap string jsval) (p : StrategyInput) :
  valid o = true -> reads o p ->
  Num.negative (riskCapital p) = false
  /\ Num.negative
       (Num.div (riskCapital p) (Num.mul (stopLossPips p) (lit "1.5"))) = false.
Proof.
  intros Hv Hp. pose proof (riskCapital_nonnegative o p Hv Hp) as H.
  split; [exact H|]. apply div_nonnegative; [exact H|].
  unfold stopLossPips.
  destruct (String.eqb (profile p) "Scalping"); [vm_compute; reflexivity|].
  destruct (String.eqb (profile p) "Day Trade"); vm_compute; reflexivity.
Qed.

Lemma risk_amounts_not_negative_witness :
  Num.negative (riskCapital Scenarios.day_trade_scenario) = false
  /\ Num.negative
       (Num.div (riskCapital Scenarios.day_trade_scenario)
          (Num.mul (stopLossPips Scenarios.day_trade_scenario) (lit "1.5")))
     = false.
Proof.
  apply (risk_amounts_not_negative (object_of Scenarios.day_trade_scenario)).
  - vm_compute. reflexivity.
  - apply reads_object_of.
Defined.

Lemma catalog_single_line (l : list string) :
  incl l indicatorOptions -> List.forallb single_line l = true.
Proof.
  induction l as [|a l IH]; intros H; [reflexivity|].
  cbn [List.forallb]. rewrite IH by (intros x Hx; apply H; right; exact Hx).
  rewrite andb_true_r.
  assert (In a indicatorOptions) as Ha by (apply H; left; reflexivity).
  cbn in Ha. destruct Ha as [<- | [<- | [<- | [<- | [<- | []]]]]];
    vm_compute; reflexivity.
Qed.

(** X15. Every report the page can come to display, along any run of the
    controls, has exactly seven lines. *)
Theorem displayed_report_has_seven_lines (events : list event) (text : string) :
  List.forallb offered events = true ->
  result (run events initial) = Some text ->
  List.length (lines text) = 7%nat.
Proof.
  intros Hev Hres.
  destruct (run_invariant events initial Hev initial_invariant) as (_ & _ & Hbuilt).
  destruct Hbuilt as [E | (o & p & Hwf & Hv & Hp & E)]; [congruence|].
  rewrite Hres in E. injection E as E. rewrite E.
  destruct Hwf as (_ & _ & _ & (l & Hl & _ & Hincl) & _).
  pose proof Hp as (_ & _ & _ & Hind & _).
  rewrite Hl in Hind. injection Hind as Hind. apply map_JStr_injective in Hind.
  rewrite Hind in Hincl.
  rewrite (lines_of_report o p Hv Hp (catalog_single_line _ Hincl)).
  reflexivity.
Qed.

Lemma displayed_report_has_seven_lines_witness :
  let p := {| profile := "Day Trade"; capital := lit "1000";
              riskPerTrade := lit "1";
              indicators := [ "Média Móvel Exponencial (EMA)";
                              "Índice de Força Relativa (RSI)" ];
              session := "Londres"; automationLevel := "Semi-Autônomo" |} in
  List.length (lines (buildStrategy p)) = 7%nat.
Proof.
  intros p.
  apply (displayed_report_has_seven_lines [GenerateClick] (buildStrategy p)).
  - reflexivity.
  - vm_compute. reflexivity.
Defined.

End Form.
